(** * finance_analysis_pipeline: run tracking and Yahoo extractors

    A shallow embedding of

      - [src/common/state_store.py]        ([generate_run_id],
                                            [create_run_metadata]),
      - [src/extract/yahoo_prices.py]      ([extract_yahoo_prices]),
      - [src/extract/yahoo_company_info.py] ([extract_yahoo_company_info]),

    together with the properties the specification states about them.

    The Python code reads the system clock, draws random UUIDs and calls
    the data provider.  These are the only effects; they are modelled by
    an explicit [World] that is threaded through every call, and by a
    [Provider] that answers the requests the extractors send. *)

From Stdlib Require Import ZArith Ascii String List Bool Lia.
From stdpp Require Import base option list strings gmap.

Local Open Scope Z_scope.

(** ** Python values, exceptions and results *)

(** [datetime.datetime]: the naive local time returned by
    [datetime.now()]. *)
Record DateTime := mkDateTime {
  year : Z; month : Z; day : Z;
  hour : Z; minute : Z; second : Z;
  microsecond : Z
}.

(** The ranges the [datetime] type guarantees for its fields. *)
Definition valid_datetime (d : DateTime) : Prop :=
  1 <= year d <= 9999 /\ 1 <= month d <= 12 /\ 1 <= day d <= 31 /\
  0 <= hour d <= 23 /\ 0 <= minute d <= 59 /\ 0 <= second d <= 59 /\
  0 <= microsecond d <= 999999.

(** The values that appear in records and table cells.  [PyNum] stands
    for any number that is not NaN; no function below computes with it. *)
Inductive pyval :=
| PyNone
| PyNaN
| PyNum (x : Z)
| PyStr (s : string)
| PyTime (d : DateTime).

(** An exception: its class and the text [str(e)] gives. *)
Record exn := mkExn { exn_class : string; exn_str : string }.

(** [KeyError(key)]: [str(e)] is the key in quotes. *)
Definition KeyError (key : string) : exn :=
  mkExn "KeyError" ("'" +:+ key +:+ "'").

Definition is_KeyError (e : exn) : bool := String.eqb (exn_class e) "KeyError".

Inductive result (A : Type) :=
| Ok (a : A)
| Raise (e : exn).
Arguments Ok {A} a.
Arguments Raise {A} e.

(** ** The world: system clock and random source *)

(** [now_seq] gives the successive readings of the system clock and
    [uuid_seq] the successive 128-bit values of [uuid.uuid4()];
    [reads] and [draws] count how many of each were consumed. *)
Record World := mkWorld {
  now_seq : nat -> DateTime;
  uuid_seq : nat -> Z;
  reads : nat;
  draws : nat
}.

(** Computations that read the world and may raise. *)
Definition M (A : Type) : Type := World -> result A * World.

Definition ret {A} (a : A) : M A := fun w => (Ok a, w).

Definition raise {A} (e : exn) : M A := fun w => (Raise e, w).

Definition bind {A B} (m : M A) (k : A -> M B) : M B :=
  fun w => match m w with
           | (Ok a, w') => k a w'
           | (Raise e, w') => (Raise e, w')
           end.

(** [try: m except Exception as e: h e] *)
Definition try_except {A} (m : M A) (h : exn -> M A) : M A :=
  fun w => match m w with
           | (Ok a, w') => (Ok a, w')
           | (Raise e, w') => h e w'
           end.

Declare Scope py_scope.
Delimit Scope py_scope with py.
Notation "x <- m ;; k" := (bind m (fun x => k))
  (at level 100, m at next level, right associativity) : py_scope.

(** [datetime.now()] *)
Definition datetime_now : M DateTime :=
  fun w => (Ok (now_seq w (reads w)),
            mkWorld (now_seq w) (uuid_seq w) (S (reads w)) (draws w)).

(** [uuid.uuid4().int]: a 128-bit value. *)
Definition uuid4_int : M Z :=
  fun w => (Ok (uuid_seq w (draws w) mod 2 ^ 128),
            mkWorld (now_seq w) (uuid_seq w) (reads w) (S (draws w))).

(** ** Rendering numbers *)

Definition digit_chars : list ascii :=
  ["0"; "1"; "2"; "3"; "4"; "5"; "6"; "7"; "8"; "9";
   "a"; "b"; "c"; "d"; "e"; "f"]%char.

Definition digit_char (d : Z) : ascii :=
  nth (Z.to_nat d) digit_chars "0"%char.

(** [width] digits of [n] in base [base], most significant first,
    padded with zeros: what [%0<width>d] and [%0<width>x] print for
    [0 <= n < base ^ width]. *)
Fixpoint render (base : Z) (width : nat) (n : Z) : string :=
  match width with
  | O => EmptyString
  | S w => String (digit_char ((n / base ^ Z.of_nat w) mod base))
                  (render base w n)
  end.

(** The digits [%Y] prints: glibc prints the year in decimal without
    padding, so a year below 1000 has fewer than four digits. *)
Definition year_width (y : Z) : nat :=
  if y <? 10 then 1 else if y <? 100 then 2 else if y <? 1000 then 3 else 4.

(** [d.strftime('%Y%m%d_%H%M%S')] *)
Definition strftime_run (d : DateTime) : string :=
  render 10 (year_width (year d)) (year d)
  +:+ render 10 2 (month d) +:+ render 10 2 (day d)
  +:+ "_" +:+
  render 10 2 (hour d) +:+ render 10 2 (minute d) +:+ render 10 2 (second d).

(** [UUID.hex]: ['%032x' % self.int] *)
Definition uuid_hex (i : Z) : string := render 16 32 i.

(** ** state_store.py *)

(** The f-string [f"run_{t.strftime('%Y%m%d_%H%M%S')}_{u.hex[:8]}"]. *)
Definition run_id_of (t : DateTime) (u : Z) : string :=
  "run_" +:+ strftime_run t +:+ "_" +:+ substring 0 8 (uuid_hex u).

(** [return f"run_{datetime.now().strftime('%Y%m%d_%H%M%S')}_{uuid.uuid4().hex[:8]}"] *)
Definition generate_run_id : M string :=
  (t <- datetime_now ;;
   u <- uuid4_int ;;
   ret (run_id_of t u))%py.

(** The world after one call of [generate_run_id]. *)
Definition after_run_id (w : World) : World :=
  mkWorld (now_seq w) (uuid_seq w) (S (reads w)) (S (draws w)).

(** [[m() for _ in range(n)]]: [n] calls in succession. *)
Fixpoint call_n {A} (n : nat) (m : M A) : M (list A) :=
  match n with
  | O => ret []
  | S n' => (x <- m ;; xs <- call_n n' m ;; ret (x :: xs))%py
  end.

(** The dictionary [create_run_metadata] returns; its six keys are
    always present, so it is a record. *)
Record RunRecord := mkRunRecord {
  run_id : string;
  dataset_name : string;
  run_timestamp : DateTime;
  status : string;
  records_loaded : Z;
  error_message : option string
}.

Definition create_run_metadata (dataset : string) (st : string)
    (loaded : Z) (err : option string) : M RunRecord :=
  (rid <- generate_run_id ;;
   ts <- datetime_now ;;
   ret (mkRunRecord rid dataset ts st loaded err))%py.

(** The defaults of the signature:
    [status="started", records_loaded=0, error_message=None]. *)
Definition default_status : string := "started".
Definition default_records_loaded : Z := 0.
Definition default_error_message : option string := None.

Definition create_run_metadata_defaults (dataset : string) : M RunRecord :=
  create_run_metadata dataset default_status default_records_loaded
    default_error_message.

(** ** Run ids as text *)

(** Reading a string of digits back as a number. *)
Definition char_digit (c : ascii) : Z :=
  let n := Z.of_N (N_of_ascii c) in
  if (48 <=? n) && (n <=? 57) then n - 48
  else if (97 <=? n) && (n <=? 102) then n - 87
  else 0.

Fixpoint digits_value (base : Z) (s : string) (acc : Z) : Z :=
  match s with
  | EmptyString => acc
  | String c s' => digits_value base s' (acc * base + char_digit c)
  end.

Definition is_digit (c : ascii) : bool :=
  let n := Z.of_N (N_of_ascii c) in (48 <=? n) && (n <=? 57).

Definition is_hex_digit (c : ascii) : bool :=
  let n := Z.of_N (N_of_ascii c) in
  is_digit c || ((97 <=? n) && (n <=? 102)).

Definition all_chars (p : ascii -> bool) (s : string) : bool :=
  forallb p (list_ascii_of_string s).

(** The order of timestamps up to the second, as [datetime] compares
    them: field by field, most significant first. *)
Definition second_key (d : DateTime) : list Z :=
  [year d; month d; day d; hour d; minute d; second d].


Fixpoint lex_compare (a b : list Z) : comparison :=
  match a, b with
  | x :: a', y :: b' =>
      match x ?= y with Eq => lex_compare a' b' | c => c end
  | [], [] => Eq
  | [], _ :: _ => Lt
  | _ :: _, [] => Gt
  end.

(** What decides a run id: the clock reading up to the second and the
    first 32 bits of the UUID. *)
Definition run_id_key (t : DateTime) (u : Z) : list Z :=
  second_key t ++ [u / 2 ^ 96].

(** The key of the [k]-th of the calls that start in world [w]. *)
Definition call_key (w : World) (k : nat) : list Z :=
  run_id_key (now_seq w (reads w + k)) (uuid_seq w (draws w + k) mod 2 ^ 128).

(** The claim on [error_message]: present only on a failed record. *)
Definition error_only_when_failed (r : RunRecord) : Prop :=
  error_message r <> None -> status r = "failed".


(** The form [run_<YYYYMMDD_HHMMSS>_<8 hex>] for the clock reading [t]
    and the UUID value [u]: the digits are those of the reading, the
    hex digits are the first 32 of the 128 bits of the UUID. *)
Definition run_id_shape (t : DateTime) (u : Z) (id : string) : Prop :=
  exists date time hex : string,
    id = "run_" +:+ date +:+ "_" +:+ time +:+ "_" +:+ hex /\
    String.length date = 8%nat /\ all_chars is_digit date = true /\
    digits_value 10 date 0 = year t * 10000 + month t * 100 + day t /\
    String.length time = 6%nat /\ all_chars is_digit time = true /\
    digits_value 10 time 0 = hour t * 10000 + minute t * 100 + second t /\
    String.length hex = 8%nat /\ all_chars is_hex_digit hex = true /\
    digits_value 16 hex 0 = u / 2 ^ 96.

(** ** Tables

    The part of pandas the extractors use.  A [Frame] is a table after
    [reset_index()]: column labels and rows of cells, a row holding one
    cell per column.  An [IFrame] still has its index (the dates). *)

Record Frame := mkFrame {
  columns : list string;
  rows : list (list pyval)
}.

Record IFrame := mkIFrame {
  index_name : option string;
  icolumns : list string;
  irows : list (pyval * list pyval)
}.

(** [pd.DataFrame()] *)
Definition empty_frame : Frame := mkFrame [] [].

(** [pd.isna]: [None] and NaN are null. *)
Definition isna (v : pyval) : bool :=
  match v with
  | PyNone | PyNaN => true
  | _ => false
  end.

Fixpoint mem (name : string) (cols : list string) : bool :=
  match cols with
  | [] => false
  | c :: cs => String.eqb c name || mem name cs
  end.

(** One row of [df[name] = v]: every cell under the label [name]. *)
Fixpoint assign_row (name : string) (v : pyval) (cols : list string)
    (row : list pyval) : list pyval :=
  match cols, row with
  | c :: cs, x :: xs =>
      (if String.eqb c name then v else x) :: assign_row name v cs xs
  | _, _ => row
  end.

(** [df[name] = v] with a scalar [v]: the column is overwritten when the
    label exists and appended as the last column otherwise. *)
Definition setitem (name : string) (v : pyval) (f : Frame) : Frame :=
  if mem name (columns f)
  then mkFrame (columns f) (map (assign_row name v (columns f)) (rows f))
  else mkFrame (columns f ++ [name]) (map (fun r => r ++ [v]) (rows f)).

Definition isetitem (name : string) (v : pyval) (f : IFrame) : IFrame :=
  if mem name (icolumns f)
  then mkIFrame (index_name f) (icolumns f)
         (map (fun r => (fst r, assign_row name v (icolumns f) (snd r))) (irows f))
  else mkIFrame (index_name f) (icolumns f ++ [name])
         (map (fun r => (fst r, snd r ++ [v])) (irows f)).

(** [df.reset_index()]: the index becomes the first column, under its
    name ([index], or [level_0] when that is taken, for an unnamed
    index); pandas refuses to insert a label that exists already. *)
Definition reset_index (f : IFrame) : result Frame :=
  let name := match index_name f with
              | Some n => n
              | None => if mem "index" (icolumns f) then "level_0" else "index"
              end in
  if mem name (icolumns f)
  then Raise (mkExn "ValueError" ("cannot insert " +:+ name +:+ ", already exists"))
  else Ok (mkFrame (name :: icolumns f)
                   (map (fun r => fst r :: snd r) (irows f))).

(** The cell of a row under the first column labelled [name]; NaN when
    there is none. *)
Fixpoint lookup_cell (cols : list string) (row : list pyval)
    (name : string) : pyval :=
  match cols, row with
  | c :: cs, x :: xs => if String.eqb c name then x else lookup_cell cs xs name
  | _, _ => PyNaN
  end.

Fixpoint has_dup (cols : list string) : bool :=
  match cols with
  | [] => false
  | c :: cs => mem c cs || has_dup cs
  end.

(** The labels of [l] in order of first appearance, those of [seen]
    left out. *)
Fixpoint first_labels (seen l : list string) : list string :=
  match l with
  | [] => []
  | x :: l' =>
      if mem x seen then first_labels seen l'
      else x :: first_labels (x :: seen) l'
  end.

Definition unique_labels (l : list string) : list string := first_labels [] l.

Definition same_columns (cols : list string) (f : Frame) : bool :=
  bool_decide (columns f = cols).

(** [pd.concat(dfs, ignore_index=True)]: frames with the same columns are
    stacked; otherwise the columns are united in order of first
    appearance and missing cells are NaN, which pandas refuses when a
    frame has a repeated label. *)
Definition pd_concat (dfs : list Frame) : result Frame :=
  match dfs with
  | [] => Raise (mkExn "ValueError" "No objects to concatenate")
  | f0 :: _ =>
      if forallb (same_columns (columns f0)) dfs
      then Ok (mkFrame (columns f0) (flat_map rows dfs))
      else if existsb (fun f => has_dup (columns f)) dfs
      then Raise (mkExn "InvalidIndexError"
                    "Reindexing only valid with uniquely valued Index objects")
      else
        let cols := unique_labels (flat_map columns dfs) in
        Ok (mkFrame cols
              (flat_map (fun f => map (fun r => map (lookup_cell (columns f) r) cols)
                                      (rows f)) dfs))
  end.

(** [str.lower] on ASCII text. *)
Definition lower_char (c : ascii) : ascii :=
  let n := nat_of_ascii c in
  if (65 <=? n)%nat && (n <=? 90)%nat then ascii_of_nat (n + 32) else c.

Fixpoint str_lower (s : string) : string :=
  match s with
  | EmptyString => EmptyString
  | String c s' => String (lower_char c) (str_lower s')
  end.

(** [df.columns = df.columns.str.lower()] *)
Definition lower_columns (f : Frame) : Frame :=
  mkFrame (map str_lower (columns f)) (rows f).

Fixpoint mapping_get (m : list (string * string)) (k : string) : string :=
  match m with
  | [] => k
  | (a, b) :: m' => if String.eqb a k then b else mapping_get m' k
  end.

(** [df.rename(columns=mapping)]: labels without an entry are kept. *)
Definition rename_columns (m : list (string * string)) (f : Frame) : Frame :=
  mkFrame (map (mapping_get m) (columns f)) (rows f).

(** The positions of the columns labelled [name], from position [i] on. *)
Fixpoint positions (name : string) (cols : list string) (i : nat) : list nat :=
  match cols with
  | [] => []
  | c :: cs =>
      if String.eqb c name then i :: positions name cs (S i)
      else positions name cs (S i)
  end.

(** [df[names]]: the columns under each of the labels, in the order of
    [names]; [KeyError] when a label is missing. *)
Definition select_columns (names : list string) (f : Frame) : result Frame :=
  if forallb (fun n => mem n (columns f)) names
  then
    let pos := flat_map (fun n => positions n (columns f) 0) names in
    Ok (mkFrame (map (fun i => nth i (columns f) EmptyString) pos)
                (map (fun r => map (fun i => nth i r PyNaN) pos) (rows f)))
  else Raise (KeyError "not in index").

(** Does the row have a null cell under one of the labels of [subset]? *)
Fixpoint row_has_na (subset cols : list string) (row : list pyval) : bool :=
  match cols, row with
  | c :: cs, x :: xs => (mem c subset && isna x) || row_has_na subset cs xs
  | _, _ => false
  end.

(** [df.dropna(subset=subset)] *)
Definition dropna (subset : list string) (f : Frame) : result Frame :=
  if forallb (fun n => mem n (columns f)) subset
  then Ok (mkFrame (columns f)
             (List.filter (fun r => negb (row_has_na subset (columns f) r))
                          (rows f)))
  else Raise (KeyError "subset").

(** A record: a [dict] literal, its keys in insertion order. *)
Definition PyRecord : Type := list (string * pyval).

Fixpoint record_get (r : PyRecord) (k : string) : pyval :=
  match r with
  | [] => PyNaN
  | (a, v) :: r' => if String.eqb a k then v else record_get r' k
  end.

(** pandas infers a type for every column of a new table and writes a
    missing value as NaN, NaT or [None] accordingly ([None] next to a
    missing key or to a number becomes NaN); [isna] and [dropna] treat
    the three alike.  A table made of records holds [PyNaN] for each. *)
Definition null_cell (v : pyval) : pyval := if isna v then PyNaN else v.

(** [pd.DataFrame(records)]: one row per record; the columns are the
    keys in order of first appearance, a missing key gives NaN. *)
Definition dataframe_of_records (records : list PyRecord) : Frame :=
  let cols := unique_labels (flat_map (map fst) records) in
  mkFrame cols (map (fun r => map (fun c => null_cell (record_get r c)) cols)
                    records).

(** [df[name].tolist()] *)
Definition frame_column (name : string) (f : Frame) : list pyval :=
  map (fun r => lookup_cell (columns f) r name) (rows f).

(** ** The data provider (yfinance) *)

(** What a download is asked for: [start=, end=] or [period=]. *)
Inductive Window :=
| Range (start_date end_date : string)
| Period (period : string).

(** The answers of the provider.  [yf.download] returns a frame with
    plain columns for a list of one ticker and a frame whose columns are
    grouped by ticker otherwise ([group_by='ticker']); of the grouped
    frame the extractor only uses [data[ticker]], a frame or a
    [KeyError].  [ticker_info] is [yf.Ticker(symbol).info] as a
    dictionary; [Raise] stands for every way in which getting it or
    reading it with [.get] raises. *)
Record Provider := mkProvider {
  download_one : string -> Window -> result IFrame;
  download_many : list string -> Window -> result (gmap string IFrame);
  ticker_info : string -> result (gmap string pyval)
}.

Definition lift {A} (r : result A) : M A := fun w => (r, w).

(** ** yahoo_prices.py *)

(** Python truthiness of an [Optional[str]]. *)
Definition truthy (s : option string) : bool :=
  match s with
  | Some s => negb (String.eqb s "")
  | None => false
  end.

(** [if start_date and end_date: ... start=start_date, end=end_date ...
     else: ... period=period ...] *)
Definition request_window (start_date end_date : option string)
    (period : string) : Window :=
  match start_date, end_date with
  | Some s, Some e => if truthy start_date && truthy end_date
                      then Range s e else Period period
  | _, _ => Period period
  end.

Definition column_mapping : list (string * string) :=
  [("date", "date"); ("open", "open"); ("high", "high"); ("low", "low");
   ("close", "close"); ("adj close", "adj_close"); ("volume", "volume");
   ("symbol", "symbol")].

Definition final_columns : list string :=
  ["symbol"; "date"; "open"; "high"; "low"; "close"; "adj_close"; "volume"].

Definition critical_columns : list string := ["close"; "volume"].

(** Lines 83-112: normalise the labels, pick the columns, stamp
    [ingested_at], drop the rows with a null [close] or [volume]. *)
Definition normalise_prices (df : Frame) : M Frame :=
  (let df := lower_columns df in
   let df := rename_columns column_mapping df in
   df <- lift (select_columns final_columns df) ;;
   now <- datetime_now ;;
   let df := setitem "ingested_at" (PyTime now) df in
   df <- lift (dropna critical_columns df) ;;
   ret df)%py.

(** Lines 69-71: the body of the [try] of the loop. *)
Definition ticker_frame (data : gmap string IFrame) (ticker : string)
  : result Frame :=
  match data !! ticker with
  | None => Raise (KeyError ticker)
  | Some ticker_data =>
      reset_index (isetitem "symbol" (PyStr ticker) ticker_data)
  end.

(** Lines 66-75: the loop; a [KeyError] skips the ticker, any other
    exception leaves the loop. *)
Fixpoint collect_frames (data : gmap string IFrame) (tickers : list string)
    (dfs : list Frame) : result (list Frame) :=
  match tickers with
  | [] => Ok dfs
  | ticker :: rest =>
      match ticker_frame data ticker with
      | Ok ticker_data => collect_frames data rest (dfs ++ [ticker_data])
      | Raise e =>
          if is_KeyError e then collect_frames data rest dfs else Raise e
      end
  end.

(** The function from the download on, for the window that was chosen.
    The download is written inside the branch on [len(tickers)] because
    its answer has a different type in the two branches; both lie in
    the same [try]. *)
Definition prices_for_window (P : Provider) (tickers : list string)
    (window : Window) : M Frame :=
  try_except
    (match tickers with
     | [ticker] =>
         (data <- lift (download_one P ticker window) ;;
          let df := isetitem "symbol" (PyStr ticker) data in
          df <- lift (reset_index df) ;;
          normalise_prices df)
     | _ =>
         (data <- lift (download_many P tickers window) ;;
          dfs <- lift (collect_frames data tickers []) ;;
          match dfs with
          | [] => ret empty_frame
          | _ => (df <- lift (pd_concat dfs) ;; normalise_prices df)
          end)
     end)%py
    (fun e => raise e).

Definition extract_yahoo_prices (P : Provider) (tickers : list string)
    (start_date end_date : option string) (period : string) : M Frame :=
  prices_for_window P tickers (request_window start_date end_date period).

(** The default [period="1y"]. *)
Definition default_period : string := "1y".

(** ** yahoo_company_info.py *)

(** [info.get(k)] and [info.get(k, d)] *)
Definition info_get (info : gmap string pyval) (k : string) : pyval :=
  default PyNone (info !! k).

Definition info_get_or (info : gmap string pyval) (k : string) (d : pyval)
  : pyval :=
  default d (info !! k).

(** Lines 36-61 *)
Definition company_record (ticker_symbol : string) (info : gmap string pyval)
    (now : DateTime) : PyRecord :=
  [("symbol", PyStr ticker_symbol);
   ("company_name",
    info_get_or info "longName" (info_get_or info "shortName" (PyStr ticker_symbol)));
   ("sector", info_get info "sector");
   ("industry", info_get info "industry");
   ("market_cap", info_get info "marketCap");
   ("enterprise_value", info_get info "enterpriseValue");
   ("pe_ratio", info_get info "trailingPE");
   ("forward_pe", info_get info "forwardPE");
   ("peg_ratio", info_get info "pegRatio");
   ("price_to_book", info_get info "priceToBook");
   ("dividend_yield", info_get info "dividendYield");
   ("beta", info_get info "beta");
   ("fifty_two_week_high", info_get info "fiftyTwoWeekHigh");
   ("fifty_two_week_low", info_get info "fiftyTwoWeekLow");
   ("fifty_day_average", info_get info "fiftyDayAverage");
   ("two_hundred_day_average", info_get info "twoHundredDayAverage");
   ("shares_outstanding", info_get info "sharesOutstanding");
   ("float_shares", info_get info "floatShares");
   ("employees", info_get info "fullTimeEmployees");
   ("country", info_get info "country");
   ("city", info_get info "city");
   ("website", info_get info "website");
   ("business_summary", info_get info "longBusinessSummary");
   ("ingested_at", PyTime now)].

(** Lines 71-75 *)
Definition degraded_record (ticker_symbol : string) (now : DateTime)
    (e : exn) : PyRecord :=
  [("symbol", PyStr ticker_symbol);
   ("ingested_at", PyTime now);
   ("error", PyStr (exn_str e))].

(** One turn of the loop, lines 30-76: the record that is appended.
    [time.sleep(0.1)] only delays the next turn and is left out. *)
Definition company_step (P : Provider) (ticker_symbol : string) : M PyRecord :=
  try_except
    (info <- lift (ticker_info P ticker_symbol) ;;
     now <- datetime_now ;;
     ret (company_record ticker_symbol info now))%py
    (fun e =>
       (now <- datetime_now ;;
        ret (degraded_record ticker_symbol now e))%py).

(** Lines 27-76: the loop over the tickers. *)
Fixpoint company_records (P : Provider) (tickers : list string)
    (records : list PyRecord) : M (list PyRecord) :=
  match tickers with
  | [] => ret records
  | ticker_symbol :: rest =>
      (record <- company_step P ticker_symbol ;;
       company_records P rest (records ++ [record]))%py
  end.

Definition extract_yahoo_company_info (P : Provider) (tickers : list string)
  : M Frame :=
  (records <- company_records P tickers [] ;;
   ret (dataframe_of_records records))%py.

(** The world after one reading of the clock. *)
Definition tick (w : World) : World :=
  mkWorld (now_seq w) (uuid_seq w) (S (reads w)) (draws w).

(** The record one turn of the loop appends when the clock shows [now]. *)
Definition step_record (P : Provider) (ticker_symbol : string)
    (now : DateTime) : PyRecord :=
  match ticker_info P ticker_symbol with
  | Ok info => company_record ticker_symbol info now
  | Raise e => degraded_record ticker_symbol now e
  end.

(** The records of a run over [tickers] that starts in world [w]: the
    [i]-th turn reads the clock for the [i]-th time. *)
Definition records_of (P : Provider) (tickers : list string) (w : World)
  : list PyRecord :=
  imap (fun i sym => step_record P sym (now_seq w (reads w + i))) tickers.

(** The labels of a frame of daily prices of one ticker. *)
Definition price_columns : list string :=
  ["Open"; "High"; "Low"; "Close"; "Adj Close"; "Volume"].

(** A successful fetch of one ticker: a frame indexed by [Date] with
    the six price columns. *)
Definition price_frame (f : IFrame) : Prop :=
  index_name f = Some "Date" /\ icolumns f = price_columns /\
  Forall (fun r => length (snd r) = 6%nat) (irows f).

(** A provider whose successful downloads are frames of prices. *)
Definition price_provider (P : Provider) : Prop :=
  (forall t win f, download_one P t win = Ok f -> price_frame f) /\
  (forall ts win data t f,
     download_many P ts win = Ok data -> data !! t = Some f -> price_frame f).

(** The columns after [reset_index()] and [df['symbol'] = ticker]. *)
Definition raw_columns : list string := "Date" :: price_columns ++ ["symbol"].

Definition raw_row (ticker : string) (r : pyval * list pyval) : list pyval :=
  fst r :: snd r ++ [PyStr ticker].

Definition output_columns : list string := final_columns ++ ["ingested_at"].

(** The output row of a row of the provider:
    symbol, date, open, high, low, close, adj_close, volume, ingested_at. *)
Definition price_row (ticker : string) (now : DateTime)
    (r : pyval * list pyval) : list pyval :=
  PyStr ticker :: fst r :: snd r ++ [PyTime now].

(** No null under [close] or [volume]. *)
Definition complete_row (row : list pyval) : bool :=
  negb (row_has_na critical_columns output_columns row).

(** The output rows of one ticker of a grouped download: none when the
    download has no entry for it. *)
Definition ticker_rows (data : gmap string IFrame) (now : DateTime)
    (ticker : string) : list (list pyval) :=
  match data !! ticker with
  | Some f => map (price_row ticker now) (irows f)
  | None => []
  end.

(** The frames the loop collects from a grouped download. *)
Definition present_frames (data : gmap string IFrame) (tickers : list string)
  : list Frame :=
  flat_map (fun t => match data !! t with
                     | Some f => [mkFrame raw_columns (map (raw_row t) (irows f))]
                     | None => []
                     end) tickers.

(** The download request the extractor sends for a ticker list. *)
Definition download_result (P : Provider) (tickers : list string)
    (window : Window) : result unit :=
  match tickers with
  | [ticker] => match download_one P ticker window with
                | Ok _ => Ok tt
                | Raise e => Raise e
                end
  | _ => match download_many P tickers window with
         | Ok _ => Ok tt
         | Raise e => Raise e
         end
  end.

(** [P'] answers the download request for [tickers] and [window] as
    [P] does; nothing is said of its other answers. *)
Definition same_answer (P P' : Provider) (tickers : list string)
    (window : Window) : Prop :=
  match tickers with
  | [ticker] => download_one P' ticker window = download_one P ticker window
  | _ => download_many P' tickers window = download_many P tickers window
  end.

Definition is_window (a b : Window) : bool :=
  match a, b with
  | Range s e, Range s' e' => String.eqb s s' && String.eqb e e'
  | Period p, Period p' => String.eqb p p'
  | _, _ => false
  end.

(** ** Sample data *)

(** A sample world: the clock advances by [k] seconds per reading from
    2024-01-15 09:30:00 and the UUIDs are [k * 2 ^ 96 + 7]. *)
Definition sample_world : World :=
  mkWorld (fun k => mkDateTime 2024 1 15 9 30 (Z.of_nat k mod 60) 0)
          (fun k => Z.of_nat k * 2 ^ 96 + 7) 0 0.

(** A world in which all calls fall in the same second and the UUIDs
    0, 1, 2, ... differ only after their first 32 bits. *)
Definition colliding_world : World :=
  mkWorld (fun _ => mkDateTime 2024 1 15 9 30 0 0) Z.of_nat 0 0.

Definition sample_prices : IFrame :=
  mkIFrame (Some "Date")
    ["Open"; "High"; "Low"; "Close"; "Adj Close"; "Volume"]
    [(PyStr "2024-01-11", [PyNum 10; PyNum 12; PyNum 9; PyNum 11; PyNum 11; PyNum 500]);
     (PyStr "2024-01-12", [PyNum 11; PyNum 13; PyNum 10; PyNaN; PyNaN; PyNum 700]);
     (PyStr "2024-01-15", [PyNum 12; PyNum 14; PyNum 11; PyNum 13; PyNum 13; PyNum 900])].

(** A provider that knows the ticker AAA only: a grouped download has
    no entry for any other ticker, and asking for the company
    information of another ticker raises. *)
Definition sample_provider : Provider :=
  mkProvider
    (fun _ _ => Ok sample_prices)
    (fun _ _ => Ok {[ "AAA" := sample_prices ]})
    (fun t => if String.eqb t "AAA"
              then Ok {[ "longName" := PyStr "Triple A Inc."; "sector" := PyStr "Technology" ]}
              else Raise (mkExn "HTTPError" "404 Client Error")).

(** What the price extractor returns for AAA and BBB from
    [sample_provider] in [sample_world]: the two complete rows of AAA. *)
Definition sample_output : Frame :=
  mkFrame output_columns
    [[PyStr "AAA"; PyStr "2024-01-11"; PyNum 10; PyNum 12; PyNum 9; PyNum 11;
      PyNum 11; PyNum 500; PyTime (mkDateTime 2024 1 15 9 30 0 0)];
     [PyStr "AAA"; PyStr "2024-01-15"; PyNum 12; PyNum 14; PyNum 11; PyNum 13;
      PyNum 13; PyNum 900; PyTime (mkDateTime 2024 1 15 9 30 0 0)]].

(** A provider that answers like [sample_provider] when it is asked for
    the window [window], and refuses every other window. *)
Definition only_window (window : Window) : Provider :=
  mkProvider
    (fun _ win => if is_window win window then Ok sample_prices
                  else Raise (mkExn "ValueError" "other window requested"))
    (fun _ win => if is_window win window then Ok {[ "AAA" := sample_prices ]}
                  else Raise (mkExn "ValueError" "other window requested"))
    (ticker_info sample_provider).

(** A provider whose aggregate download request fails. *)
Definition failing_provider : Provider :=
  mkProvider
    (fun _ _ => Raise (mkExn "ConnectionError" "network unreachable"))
    (fun _ _ => Raise (mkExn "ValueError" "No objects to concatenate"))
    (fun _ => Raise (mkExn "ConnectionError" "network unreachable")).


(** A world in which all calls fall in the same second and the UUIDs
    count down: the first 32 bits are 9, 8, 7, ... *)
Definition reversing_world : World :=
  mkWorld (fun _ => mkDateTime 2024 1 15 9 30 0 0)
          (fun k => (9 - Z.of_nat k) * 2 ^ 96) 0 0.

(** The labels of a frame after lines 83-98: lowercased, then renamed. *)
Definition normalised_labels (df : Frame) : list string :=
  map (mapping_get column_mapping) (map str_lower (columns df)).

(** The rows a download offers to the output, before rows without
    [close] or [volume] are dropped. *)
Definition downloaded_rows (P : Provider) (tickers : list string)
    (window : Window) (now : DateTime) : list (list pyval) :=
  match tickers with
  | [ticker] =>
      match download_one P ticker window with
      | Ok f => map (price_row ticker now) (irows f)
      | Raise _ => []
      end
  | _ =>
      match download_many P tickers window with
      | Ok data => flat_map (ticker_rows data now) tickers
      | Raise _ => []
      end
  end.

(** Prices whose index is called like one of the columns, so that
    [reset_index()] refuses to insert it. *)
Definition clashing_prices : IFrame :=
  mkIFrame (Some "Close")
    ["Open"; "High"; "Low"; "Close"; "Adj Close"; "Volume"]
    [(PyStr "2024-01-11", [PyNum 1; PyNum 1; PyNum 1; PyNum 1; PyNum 1; PyNum 1])].

(** Prices without the [Adj Close] column. *)
Definition adjusted_prices : IFrame :=
  mkIFrame (Some "Date")
    ["Open"; "High"; "Low"; "Close"; "Volume"]
    [(PyStr "2024-01-11", [PyNum 10; PyNum 12; PyNum 9; PyNum 11; PyNum 500])].

(** A provider that has good prices for AAA and bad frames for BAD (in
    a grouped download) and for ADJ (alone). *)
Definition odd_provider : Provider :=
  mkProvider
    (fun _ _ => Ok adjusted_prices)
    (fun _ _ => Ok {[ "AAA" := sample_prices; "BAD" := clashing_prices ]})
    (fun _ => Ok ∅).

(** ** tests/test_local.py *)

(** [config[key]] on the parsed ticker file. *)
Definition config_get (config : gmap string (list string)) (key : string)
  : result (list string) :=
  match config !! key with
  | Some l => Ok l
  | None => Raise (KeyError key)
  end.

(** [test_extractors()], lines 60-90.  [load_config] is what opening and
    parsing [config/tickers.yaml] gives, a mapping from names to ticker
    lists or an exception; [benchmark_series] stands for
    [extract_yahoo_benchmark_series], whose source is not part of the
    files at hand.  Log lines are left out. *)
Definition test_extractors (P : Provider)
    (benchmark_series : list string -> string -> M Frame)
    (load_config : result (gmap string (list string))) : M bool :=
  (config <- lift load_config ;;
   stocks <- lift (config_get config "stocks") ;;
   let test_stocks := take 3 stocks in
   benchmarks <- lift (config_get config "benchmarks") ;;
   let test_benchmarks := take 2 benchmarks in
   try_except
     (prices_df <- extract_yahoo_prices P test_stocks None None "5d" ;;
      company_df <- extract_yahoo_company_info P test_stocks ;;
      benchmark_df <- benchmark_series test_benchmarks "5d" ;;
      ret true)
     (fun e => ret false))%py.

(** A ticker file and a benchmark extractor for the examples. *)
Definition sample_config : gmap string (list string) :=
  {[ "stocks" := ["AAA"; "BBB"; "CCC"; "DDD"]; "benchmarks" := ["^GSPC"] ]}.

Definition sample_benchmark_series (tickers : list string) (period : string)
  : M Frame :=
  ret empty_frame.

(** ** Lemmas on strings and rendering *)

Section StringFacts.

Lemma append_nil (b : string) : "" +:+ b = b.
Proof. reflexivity. Qed.

Lemma append_cons (c : ascii) (a b : string) :
  String c a +:+ b = String c (a +:+ b).
Proof. reflexivity. Qed.

Lemma append_length (a b : string) :
  String.length (a +:+ b) = (String.length a + String.length b)%nat.
Proof.
  induction a as [|c a IH]; [reflexivity|].
  rewrite append_cons. simpl. now rewrite IH.
Qed.

Lemma all_chars_append p (a b : string) :
  all_chars p (a +:+ b) = all_chars p a && all_chars p b.
Proof.
  unfold all_chars. induction a as [|x a IH]; [reflexivity|].
  rewrite append_cons. simpl. rewrite IH. now rewrite andb_assoc.
Qed.

Lemma append_nil_r (a : string) : a +:+ "" = a.
Proof.
  induction a as [|x a IH]; [reflexivity|].
  rewrite append_cons. now rewrite IH.
Qed.

Lemma append_assoc (a b c : string) : (a +:+ b) +:+ c = a +:+ (b +:+ c).
Proof.
  induction a as [|x a IH]; [reflexivity|].
  rewrite !append_cons. now rewrite IH.
Qed.

Lemma compare_refl (s : string) : String.compare s s = Eq.
Proof.
  induction s as [|c s IH]; simpl; [reflexivity|].
  unfold Ascii.compare. now rewrite N.compare_refl.
Qed.

(** Comparing two strings that start with pieces of the same length. *)
Lemma compare_append (a a' r r' : string) :
  String.length a = String.length a' ->
  String.compare (a +:+ r) (a' +:+ r') =
  match String.compare a a' with
  | Eq => String.compare r r'
  | c => c
  end.
Proof.
  revert a'. induction a as [|x a IH]; intros [|x' a'] Hlen;
    simpl in Hlen; try discriminate; [reflexivity|].
  rewrite !append_cons. simpl.
  destruct (Ascii.compare x x'); try reflexivity.
  apply IH. congruence.
Qed.

Lemma compare_append_same (p r r' : string) :
  String.compare (p +:+ r) (p +:+ r') = String.compare r r'.
Proof. rewrite compare_append by reflexivity. now rewrite compare_refl. Qed.

Lemma substring_0_append (a b : string) :
  substring 0 (String.length a) (a +:+ b) = a.
Proof.
  induction a as [|x a IH].
  - rewrite append_nil. now destruct b.
  - rewrite append_cons. simpl. now rewrite IH.
Qed.

End StringFacts.

Section RenderFacts.

Lemma digit_cases (d : Z) :
  0 <= d < 16 ->
  In d [0;1;2;3;4;5;6;7;8;9;10;11;12;13;14;15].
Proof. intros H. simpl. lia. Qed.

Ltac each_digit H :=
  apply digit_cases in H; simpl in H;
  repeat (destruct H as [H|H]; [subst|]); try contradiction.

Lemma digit_char_compare (a b : Z) :
  0 <= a < 16 -> 0 <= b < 16 ->
  Ascii.compare (digit_char a) (digit_char b) = (a ?= b).
Proof. intros Ha Hb. each_digit Ha; each_digit Hb; reflexivity. Qed.

Lemma char_digit_digit_char (a : Z) :
  0 <= a < 16 -> char_digit (digit_char a) = a.
Proof. intros Ha. each_digit Ha; reflexivity. Qed.

Lemma is_digit_digit_char (a : Z) :
  0 <= a < 10 -> is_digit (digit_char a) = true.
Proof.
  intros Ha. assert (H : 0 <= a < 16) by lia.
  each_digit H; try reflexivity; lia.
Qed.

Lemma is_hex_digit_digit_char (a : Z) :
  0 <= a < 16 -> is_hex_digit (digit_char a) = true.
Proof. intros Ha. each_digit Ha; reflexivity. Qed.

Lemma render_length base w n : String.length (render base w n) = w.
Proof. induction w as [|w IH]; simpl; [reflexivity | now rewrite IH]. Qed.

Lemma render_all_digits w n : all_chars is_digit (render 10 w n) = true.
Proof.
  unfold all_chars. induction w as [|w IH]; simpl; [reflexivity|].
  rewrite IH, is_digit_digit_char; [reflexivity|].
  apply Z.mod_pos_bound. lia.
Qed.

Lemma render_all_hex w n : all_chars is_hex_digit (render 16 w n) = true.
Proof.
  unfold all_chars. induction w as [|w IH]; simpl; [reflexivity|].
  rewrite IH, is_hex_digit_digit_char; [reflexivity|].
  apply Z.mod_pos_bound. lia.
Qed.

(** The low [S w] digits split into the leading digit and the low [w]. *)
Lemma mod_pow_succ base (w : nat) n :
  0 < base ->
  n mod base ^ Z.of_nat (S w) =
  ((n / base ^ Z.of_nat w) mod base) * base ^ Z.of_nat w
  + n mod base ^ Z.of_nat w.
Proof.
  intros Hb. rewrite Nat2Z.inj_succ, Z.pow_succ_r by lia.
  assert (0 < base ^ Z.of_nat w) by (apply Z.pow_pos_nonneg; lia).
  rewrite (Z.mul_comm base), Z.rem_mul_r by lia. lia.
Qed.

(** Rendering keeps the order of the numbers it prints. *)
Lemma render_compare base w x y :
  2 <= base <= 16 ->
  String.compare (render base w x) (render base w y) =
  (x mod base ^ Z.of_nat w ?= y mod base ^ Z.of_nat w).
Proof.
  intros Hb. induction w as [|w IH].
  - simpl. now rewrite !Z.mod_1_r.
  - cbn [render String.compare].
    rewrite !(mod_pow_succ base w) by lia.
    assert (Hp : 0 < base ^ Z.of_nat w) by (apply Z.pow_pos_nonneg; lia).
    pose proof (Z.mod_pos_bound (x / base ^ Z.of_nat w) base ltac:(lia)) as Hdx.
    pose proof (Z.mod_pos_bound (y / base ^ Z.of_nat w) base ltac:(lia)) as Hdy.
    pose proof (Z.mod_pos_bound x _ Hp) as Hrx.
    pose proof (Z.mod_pos_bound y _ Hp) as Hry.
    rewrite digit_char_compare by lia. rewrite IH.
    set (dx := (x / base ^ Z.of_nat w) mod base) in *.
    set (dy := (y / base ^ Z.of_nat w) mod base) in *.
    set (rx := x mod base ^ Z.of_nat w) in *.
    set (ry := y mod base ^ Z.of_nat w) in *.
    set (p := base ^ Z.of_nat w) in *.
    destruct (Z.compare_spec dx dy) as [E|L|G].
    + subst dy. destruct (Z.compare_spec rx ry); symmetry;
        [apply Z.compare_eq_iff | apply Z.compare_lt_iff | apply Z.compare_gt_iff];
        lia.
    + symmetry. apply Z.compare_lt_iff. nia.
    + symmetry. apply Z.compare_gt_iff. nia.
Qed.

Lemma render_small_compare base w x y :
  2 <= base <= 16 ->
  0 <= x < base ^ Z.of_nat w -> 0 <= y < base ^ Z.of_nat w ->
  String.compare (render base w x) (render base w y) = (x ?= y).
Proof.
  intros Hb Hx Hy. rewrite render_compare by assumption.
  now rewrite !Z.mod_small by assumption.
Qed.

Lemma render_value base w n rest acc :
  2 <= base <= 16 ->
  digits_value base (render base w n +:+ rest) acc =
  digits_value base rest (acc * base ^ Z.of_nat w + n mod base ^ Z.of_nat w).
Proof.
  intros Hb. revert acc. induction w as [|w IH]; intros acc.
  - cbn [render]. rewrite append_nil.
    change (Z.of_nat 0) with 0. rewrite Z.pow_0_r, Z.mod_1_r. f_equal. lia.
  - cbn [render]. rewrite append_cons. cbn [digits_value].
    rewrite IH, char_digit_digit_char
      by (pose proof (Z.mod_pos_bound (n / base ^ Z.of_nat w) base); lia).
    f_equal. rewrite (mod_pow_succ base w) by lia.
    rewrite Nat2Z.inj_succ, Z.pow_succ_r by lia. ring.
Qed.

(** The first [k] of [k + w] digits are the digits of the quotient. *)
Lemma render_split base (k w : nat) n :
  0 < base ->
  render base (k + w) n =
  render base k (n / base ^ Z.of_nat w) +:+ render base w n.
Proof.
  intros Hb. induction k as [|k IH]; [reflexivity|].
  cbn [Nat.add render]. rewrite append_cons, IH. f_equal. f_equal.
  rewrite Nat2Z.inj_add, Z.pow_add_r by lia.
  rewrite Z.div_div by (try apply Z.pow_pos_nonneg; lia).
  now rewrite (Z.mul_comm (base ^ Z.of_nat w)).
Qed.

End RenderFacts.

(** ** state_store.py: run identifiers and run records *)

Section StateStore.

(** A year below 1000 is printed without padding. *)
Example strftime_run_year_999 :
  strftime_run (mkDateTime 999 1 2 3 4 5 0) = "9990102_030405".
Proof. reflexivity. Qed.

Example generate_run_id_sample :
  fst (generate_run_id sample_world) = Ok "run_20240115_093000_00000000".
Proof. vm_compute. reflexivity. Qed.

Lemma generate_run_id_eq (w : World) :
  generate_run_id w =
  (Ok (run_id_of (now_seq w (reads w)) (uuid_seq w (draws w) mod 2 ^ 128)),
   after_run_id w).
Proof. reflexivity. Qed.

Lemma hex_prefix (u : Z) :
  substring 0 8 (uuid_hex u) = render 16 8 (u / 2 ^ 96).
Proof.
  unfold uuid_hex. change 32%nat with (8 + 24)%nat.
  rewrite render_split by lia.
  change (16 ^ Z.of_nat 24) with (2 ^ 96).
  rewrite <- (render_length 16 8 (u / 2 ^ 96)) at 1.
  apply substring_0_append.
Qed.

Lemma year_width_bound (y : Z) :
  0 <= y <= 9999 -> 0 <= y < 10 ^ Z.of_nat (year_width y).
Proof.
  intros H. unfold year_width.
  destruct (Z.ltb_spec y 10); [change (10 ^ Z.of_nat 1) with 10; lia|].
  destruct (Z.ltb_spec y 100); [change (10 ^ Z.of_nat 2) with 100; lia|].
  destruct (Z.ltb_spec y 1000); [change (10 ^ Z.of_nat 3) with 1000; lia|].
  change (10 ^ Z.of_nat 4) with 10000. lia.
Qed.

Lemma year_width_four (y : Z) : 1000 <= y -> year_width y = 4%nat.
Proof.
  intros H. unfold year_width.
  destruct (Z.ltb_spec y 10); [lia|]. destruct (Z.ltb_spec y 100); [lia|].
  destruct (Z.ltb_spec y 1000); [lia | reflexivity].
Qed.

Lemma run_id_of_eq (t : DateTime) (u : Z) :
  run_id_of t u =
  "run_" +:+ render 10 (year_width (year t)) (year t) +:+
  render 10 2 (month t) +:+
  render 10 2 (day t) +:+ "_" +:+ render 10 2 (hour t) +:+
  render 10 2 (minute t) +:+ render 10 2 (second t) +:+ "_" +:+
  render 16 8 (u / 2 ^ 96).
Proof.
  unfold run_id_of, strftime_run. rewrite hex_prefix.
  now rewrite !append_assoc.
Qed.

Lemma run_id_of_length (t : DateTime) (u : Z) :
  String.length (run_id_of t u) = (24 + year_width (year t))%nat.
Proof.
  rewrite run_id_of_eq, !append_length, !render_length. simpl. lia.
Qed.

Lemma uuid_prefix_bound (u : Z) :
  0 <= u < 2 ^ 128 -> 0 <= u / 2 ^ 96 < 16 ^ 8.
Proof.
  intros U. change (16 ^ 8) with (2 ^ 32).
  split; [apply Z.div_pos; lia |
          apply Z.div_lt_upper_bound; [lia|];
          change (2 ^ 96 * 2 ^ 32) with (2 ^ 128); lia].
Qed.

(** Python's string order on run ids whose years have as many digits
    is the field-by-field order of their keys. *)
Lemma run_id_compare (t1 t2 : DateTime) (u1 u2 : Z) :
  valid_datetime t1 -> valid_datetime t2 ->
  year_width (year t1) = year_width (year t2) ->
  0 <= u1 < 2 ^ 128 -> 0 <= u2 < 2 ^ 128 ->
  String.compare (run_id_of t1 u1) (run_id_of t2 u2) =
  lex_compare (run_id_key t1 u1) (run_id_key t2 u2).
Proof.
  intros V1 V2 W U1 U2. unfold valid_datetime in V1, V2.
  pose proof (uuid_prefix_bound u1 U1) as Q1.
  pose proof (uuid_prefix_bound u2 U2) as Q2.
  pose proof (year_width_bound (year t1) ltac:(lia)) as Y1.
  pose proof (year_width_bound (year t2) ltac:(lia)) as Y2.
  rewrite !run_id_of_eq, compare_append_same.
  unfold run_id_key, second_key. cbn [app lex_compare].
  rewrite W in *.
  rewrite (compare_append (render 10 _ (year t1)) (render 10 _ (year t2)))
    by (now rewrite !render_length).
  rewrite (render_small_compare 10 _ (year t1) (year t2)) by (assumption || lia).
  repeat match goal with
  | |- context [String.compare (render ?b ?w ?x +:+ _) (render ?b ?w ?y +:+ _)] =>
      rewrite (compare_append (render b w x) (render b w y))
        by (now rewrite !render_length);
      rewrite (render_small_compare b w x y)
        by (try change (10 ^ Z.of_nat 2) with 100; lia)
  | |- context [String.compare ("_" +:+ ?r) ("_" +:+ ?r')] =>
      rewrite (compare_append_same "_" r r')
  end.
  rewrite (render_small_compare 16 8) by (try change (Z.of_nat 8) with 8; lia).
  repeat match goal with
  | |- context [?a ?= ?b] => destruct (a ?= b); try reflexivity
  end.
Qed.

Lemma lex_compare_eq (a b : list Z) : lex_compare a b = Eq -> a = b.
Proof.
  revert b. induction a as [|x a IH]; intros [|y b]; simpl; try discriminate;
    [reflexivity|].
  destruct (Z.compare_spec x y); try discriminate.
  intros H'. subst. f_equal. now apply IH.
Qed.

Lemma lex_compare_refl (a : list Z) : lex_compare a a = Eq.
Proof. induction a as [|x a IH]; simpl; [reflexivity|]. now rewrite Z.compare_refl. Qed.


Lemma run_id_of_inj (t1 t2 : DateTime) (u1 u2 : Z) :
  valid_datetime t1 -> valid_datetime t2 ->
  0 <= u1 < 2 ^ 128 -> 0 <= u2 < 2 ^ 128 ->
  run_id_of t1 u1 = run_id_of t2 u2 <-> run_id_key t1 u1 = run_id_key t2 u2.
Proof.
  intros V1 V2 U1 U2. split; intros E.
  - assert (W : year_width (year t1) = year_width (year t2)).
    { apply (f_equal String.length) in E. rewrite !run_id_of_length in E. lia. }
    apply lex_compare_eq. rewrite <- run_id_compare by assumption.
    rewrite E. apply compare_refl.
  - assert (W : year_width (year t1) = year_width (year t2)).
    { unfold run_id_key, second_key in E. cbn [app] in E.
      injection E as -> _. reflexivity. }
    apply String.compare_eq_iff. rewrite run_id_compare by assumption.
    rewrite E. apply lex_compare_refl.
Qed.

Lemma run_id_of_shape (t : DateTime) (u : Z) :
  valid_datetime t -> 1000 <= year t -> 0 <= u < 2 ^ 128 ->
  run_id_shape t u (run_id_of t u).
Proof.
  intros V Y U. unfold valid_datetime in V.
  pose proof (uuid_prefix_bound u U) as Q.
  exists (render 10 4 (year t) +:+ render 10 2 (month t) +:+ render 10 2 (day t)),
    (render 10 2 (hour t) +:+ render 10 2 (minute t) +:+ render 10 2 (second t)),
    (render 16 8 (u / 2 ^ 96)).
  rewrite !append_length, !all_chars_append, !render_length,
    !render_all_digits, render_all_hex.
  repeat split.
  - rewrite run_id_of_eq, (year_width_four _ Y). now rewrite !append_assoc.
  - rewrite <- (append_nil_r (render 10 2 (day t))).
    rewrite !render_value by lia. cbn [digits_value].
    change (10 ^ Z.of_nat 4) with 10000. change (10 ^ Z.of_nat 2) with 100.
    rewrite !Z.mod_small by lia. ring.
  - rewrite <- (append_nil_r (render 10 2 (second t))).
    rewrite !render_value by lia. cbn [digits_value].
    change (10 ^ Z.of_nat 2) with 100.
    rewrite !Z.mod_small by lia. ring.
  - rewrite <- (append_nil_r (render 16 8 (u / 2 ^ 96))).
    rewrite render_value by lia. cbn [digits_value].
    change (16 ^ Z.of_nat 8) with (16 ^ 8).
    rewrite Z.mod_small by lia. ring.
Qed.

Lemma NoDup_map_iff {A B C : Type} (f : A -> B) (g : A -> C) (l : list A) :
  (forall x y, In x l -> In y l -> (f x = f y <-> g x = g y)) ->
  List.NoDup (map f l) <-> List.NoDup (map g l).
Proof.
  induction l as [|a l IH]; intros H; simpl.
  - split; constructor.
  - rewrite !List.NoDup_cons_iff, !in_map_iff.
    rewrite IH by (intros; apply H; simpl; auto).
    split; intros [N D]; (split; [|exact D]); intros [x [E I]]; apply N;
      exists x; (split; [|exact I]); apply H; simpl; auto.
Qed.

Lemma call_n_generate_run_id (n : nat) (w : World) :
  call_n n generate_run_id w =
  (Ok (map (fun k => run_id_of (now_seq w (reads w + k))
                               (uuid_seq w (draws w + k) mod 2 ^ 128))
           (seq 0 n)),
   Nat.iter n after_run_id w).
Proof.
  revert w. induction n as [|n IH]; intros w; [reflexivity|].
  cbn [call_n]. unfold bind at 1. rewrite generate_run_id_eq.
  unfold bind at 1. rewrite IH. unfold ret.
  rewrite <- Nat.iter_succ_r. f_equal. f_equal.
  cbn [seq map]. rewrite !Nat.add_0_r. f_equal.
  rewrite <- seq_shift, map_map. apply map_ext. intros k.
  cbn [after_run_id reads draws now_seq uuid_seq].
  now rewrite !Nat.add_succ_r.
Qed.

(** C1 (as stated, refuted): a record built with [status="started"] and
    an [error_message] keeps the message, so [error_message] is present
    on a record that is not failed. *)
Lemma create_run_metadata_error_on_started :
  exists r w',
    create_run_metadata "X" "started" 0 (Some "boom") sample_world = (Ok r, w') /\
    ~ error_only_when_failed r.
Proof.
  eexists _, _. split; [reflexivity|].
  unfold error_only_when_failed. cbn. intros H.
  specialize (H ltac:(discriminate)). discriminate.
Qed.

(** C1 (amended): [create_run_metadata] never raises and copies its
    [status] and [error_message] arguments into the record unchanged;
    so [error_message] is [None] exactly when the caller passed [None],
    in particular on every call that leaves it at its default. *)
Theorem create_run_metadata_error_message
    (dataset st : string) (loaded : Z) (err : option string) (w : World) :
  exists r w',
    create_run_metadata dataset st loaded err w = (Ok r, w') /\
    status r = st /\ error_message r = err /\
    (error_message r = None <-> err = None).
Proof. eexists _, _. split; [reflexivity|]. cbn. tauto. Qed.

(** C3 (as stated, refuted): two calls with the defaults, one after the
    other, in a second in which the two UUIDs agree on their first 32
    bits: the second record carries the run id of the first, so the id
    is not different from every id generated before. *)
Lemma create_run_metadata_defaults_same_id :
  exists r1 w1 r2 w2,
    create_run_metadata_defaults "X" colliding_world = (Ok r1, w1) /\
    create_run_metadata_defaults "X" w1 = (Ok r2, w2) /\
    run_id r1 = run_id r2.
Proof.
  eexists _, _, _, _. split; [reflexivity|]. split; [reflexivity|].
  vm_compute. reflexivity.
Qed.

(** C3 (amended): called with the defaults, [create_run_metadata]
    returns (it does not raise) a record with [status = "started"],
    [records_loaded = 0], [error_message = None] and the given
    [dataset_name]; its [run_id] is made in the call from the clock
    reading and a new UUID, of the form
    [run_<YYYYMMDD>_<HHMMSS>_<first 8 hex digits of the UUID>], and its
    [run_timestamp] is the next clock reading.  The id equals an id
    generated by another call exactly when the two calls read the same
    second and drew UUIDs with the same first 32 bits. *)
Theorem create_run_metadata_defaults_record
    (dataset : string) (w0 w : World) :
  valid_datetime (now_seq w0 (reads w0)) ->
  valid_datetime (now_seq w (reads w)) ->
  1000 <= year (now_seq w (reads w)) ->
  exists r w' id0 w0',
    create_run_metadata_defaults dataset w = (Ok r, w') /\
    status r = "started" /\ records_loaded r = 0 /\
    error_message r = None /\ dataset_name r = dataset /\
    run_id_shape (now_seq w (reads w)) (uuid_seq w (draws w) mod 2 ^ 128)
      (run_id r) /\
    run_timestamp r = now_seq w (S (reads w)) /\
    reads w' = S (S (reads w)) /\ draws w' = S (draws w) /\
    generate_run_id w0 = (Ok id0, w0') /\
    (run_id r = id0 <->
     run_id_key (now_seq w (reads w)) (uuid_seq w (draws w) mod 2 ^ 128) =
     run_id_key (now_seq w0 (reads w0)) (uuid_seq w0 (draws w0) mod 2 ^ 128)).
Proof.
  intros V0 V Y. eexists _, _, _, _.
  split; [reflexivity|]. cbn [status records_loaded error_message dataset_name
                              run_id run_timestamp reads draws now_seq uuid_seq].
  do 4 (split; [reflexivity|]).
  split; [apply run_id_of_shape; try assumption; apply Z.mod_pos_bound; lia|].
  do 3 (split; [reflexivity|]).
  split; [apply generate_run_id_eq|].
  apply run_id_of_inj; try assumption; apply Z.mod_pos_bound; lia.
Qed.

Lemma create_run_metadata_defaults_record_witness :
  exists r w',
    create_run_metadata_defaults "prices" (after_run_id sample_world) = (Ok r, w') /\
    status r = "started" /\ records_loaded r = 0 /\ error_message r = None /\
    run_id_shape (now_seq sample_world 1) (uuid_seq sample_world 1 mod 2 ^ 128)
      (run_id r) /\
    Ok (run_id r) <> fst (generate_run_id sample_world).
Proof.
  destruct (create_run_metadata_defaults_record "prices" sample_world
              (after_run_id sample_world))
    as (r & w' & id0 & w0' & H & Hs & Hl & He & _ & Hshape & _ & _ & _ & H0 & Hiff).
  - vm_compute. intuition discriminate.
  - vm_compute. intuition discriminate.
  - vm_compute. discriminate.
  - exists r, w'. split; [exact H|]. split; [exact Hs|]. split; [exact Hl|].
    split; [exact He|]. split; [exact Hshape|].
    rewrite H0. cbn [fst]. intros [= E]. apply Hiff in E.
    vm_compute in E. discriminate E.
Defined.




(** C5 (as stated, refuted): two calls in the same second whose UUIDs
    agree on their first 32 bits return the same id. *)
Lemma generate_run_id_collision :
  exists id,
    fst (call_n 2 generate_run_id colliding_world) = Ok [id; id] /\
    ~ List.NoDup [id; id].
Proof.
  eexists. split; [vm_compute; reflexivity|].
  intros H. inversion H as [|? ? N _]. apply N. now left.
Qed.

(** C5 (amended): [n] calls in succession all return, and the [n] ids
    are pairwise distinct exactly when no two of the calls share both
    the second of their clock reading and the first 32 bits (8 hex
    digits) of their UUID. *)
Theorem generate_run_id_distinct (n : nat) (w : World) :
  (forall k, (k < n)%nat -> valid_datetime (now_seq w (reads w + k))) ->
  exists ids w',
    call_n n generate_run_id w = (Ok ids, w') /\
    length ids = n /\
    (List.NoDup ids <-> List.NoDup (map (call_key w) (seq 0 n))).
Proof.
  intros V. eexists _, _. split; [apply call_n_generate_run_id|].
  split; [now rewrite length_map, length_seq|].
  apply NoDup_map_iff. intros x y Hx Hy.
  apply in_seq in Hx, Hy. unfold call_key.
  apply run_id_of_inj; try (apply V; lia); apply Z.mod_pos_bound; lia.
Qed.

Lemma generate_run_id_distinct_witness :
  (forall k, (k < 3)%nat -> valid_datetime (now_seq sample_world (reads sample_world + k))) /\
  exists ids w',
    call_n 3 generate_run_id sample_world = (Ok ids, w') /\
    length ids = 3%nat /\
    (List.NoDup ids <-> List.NoDup (map (call_key sample_world) (seq 0 3))).
Proof.
  assert (V : forall k, (k < 3)%nat ->
            valid_datetime (now_seq sample_world (reads sample_world + k))).
  { intros k Hk. unfold valid_datetime, sample_world.
    cbn [now_seq reads year month day hour minute second microsecond].
    pose proof (Z.mod_pos_bound (Z.of_nat (0 + k)) 60 ltac:(lia)). lia. }
  split; [exact V|]. exact (generate_run_id_distinct 3 sample_world V).
Defined.

End StateStore.

(** ** yahoo_company_info.py *)

Section CompanyInfo.

Variable P : Provider.

Lemma mem_In (c : string) (cols : list string) :
  mem c cols = true <-> In c cols.
Proof.
  induction cols as [|x cols IH]; simpl; [split; [discriminate | tauto]|].
  rewrite orb_true_iff, IH, String.eqb_eq. tauto.
Qed.

Lemma lookup_cell_map (g : string -> pyval) (cols : list string) (c : string) :
  lookup_cell cols (map g cols) c = if mem c cols then g c else PyNaN.
Proof.
  induction cols as [|x cols IH]; simpl; [reflexivity|].
  destruct (String.eqb_spec x c) as [->|N]; simpl; [reflexivity | exact IH].
Qed.

Lemma record_get_missing (r : PyRecord) (c : string) :
  ~ In c (map fst r) -> record_get r c = PyNaN.
Proof.
  induction r as [|[a v] r IH]; simpl; [reflexivity|]. intros N.
  destruct (String.eqb_spec a c) as [->|_]; [tauto|]. apply IH. tauto.
Qed.

Lemma first_labels_In (c : string) (seen l : list string) :
  In c (first_labels seen l) <-> In c l /\ mem c seen = false.
Proof.
  revert seen. induction l as [|x l IH]; intros seen; cbn [first_labels].
  - simpl. tauto.
  - destruct (mem x seen) eqn:E.
    + rewrite IH. simpl. split; [tauto|]. intros [[<-|H] N]; [congruence | tauto].
    + cbn [In]. rewrite IH. cbn [mem].
      destruct (String.eqb_spec x c) as [->|N]; simpl.
      * split; [tauto|]. intros _. now left.
      * split; [intros [H|H]; tauto | intros [[H|H] M]; [congruence | tauto]].
Qed.

Lemma unique_labels_In (c : string) (l : list string) :
  In c (unique_labels l) <-> In c l.
Proof. unfold unique_labels. rewrite first_labels_In. simpl. tauto. Qed.

(** A cell of the row that [pd.DataFrame(records)] makes of a record is
    the value the record has under the label of the column. *)
Lemma record_row_cell (records : list PyRecord) (r : PyRecord) (c : string) :
  In r records ->
  lookup_cell (columns (dataframe_of_records records))
              (map (fun c => null_cell (record_get r c))
                   (columns (dataframe_of_records records))) c
  = null_cell (record_get r c).
Proof.
  intros Hr. rewrite (lookup_cell_map (fun c => null_cell (record_get r c))).
  destruct (mem c _) eqn:E; [reflexivity|].
  rewrite record_get_missing; [reflexivity|]. intros Hc.
  assert (mem c (columns (dataframe_of_records records)) = true) as E'; [|congruence].
  apply mem_In. cbn [dataframe_of_records columns].
  apply unique_labels_In, in_flat_map. exists r. split; assumption.
Qed.

Lemma null_cell_degraded (sym : string) (t : DateTime) (e : exn) (c : string) :
  null_cell (record_get (degraded_record sym t e) c) =
  record_get (degraded_record sym t e) c.
Proof.
  unfold degraded_record. cbn [record_get].
  repeat (destruct (String.eqb _ c); [reflexivity|]). reflexivity.
Qed.

Lemma company_step_eq (sym : string) (w : World) :
  company_step P sym w = (Ok (step_record P sym (now_seq w (reads w))), tick w).
Proof.
  unfold company_step, step_record, try_except, bind, lift.
  destruct (ticker_info P sym); reflexivity.
Qed.

Lemma company_records_eq (tickers : list string) (acc : list PyRecord) (w : World) :
  company_records P tickers acc w =
  (Ok (acc ++ imap (fun i sym => step_record P sym (now_seq w (reads w + i))) tickers),
   Nat.iter (length tickers) tick w).
Proof.
  revert acc w. induction tickers as [|sym rest IH]; intros acc w.
  - cbn. now rewrite app_nil_r.
  - cbn [company_records]. unfold bind at 1. rewrite company_step_eq, IH.
    cbn [length]. rewrite Nat.iter_succ_r. f_equal. f_equal.
    rewrite <- app_assoc. cbn [imap app]. rewrite Nat.add_0_r. f_equal. f_equal.
    apply imap_ext. intros i x _. cbn. now rewrite Nat.add_succ_r.
Qed.

Lemma extract_yahoo_company_info_eq (tickers : list string) (w : World) :
  extract_yahoo_company_info P tickers w =
  (Ok (dataframe_of_records (records_of P tickers w)),
   Nat.iter (length tickers) tick w).
Proof.
  unfold extract_yahoo_company_info, bind. now rewrite company_records_eq.
Qed.

Lemma step_record_symbol (sym : string) (t : DateTime) :
  record_get (step_record P sym t) "symbol" = PyStr sym.
Proof. unfold step_record. destruct (ticker_info P sym); reflexivity. Qed.

Lemma records_of_lookup (tickers : list string) (w : World) (i : nat) :
  records_of P tickers w !! i =
  (fun sym => step_record P sym (now_seq w (reads w + i))) <$> tickers !! i.
Proof. unfold records_of. apply list_lookup_imap. Qed.

(** C6: when fetching the information of one of the symbols raises
    [e], the extractor still returns a table; the record appended for
    that symbol is exactly [symbol], [ingested_at] (the clock reading of
    that turn) and [error] (the text of [e]), its row has NaN under
    every other column, and every symbol of the list has its record. *)
Theorem extract_yahoo_company_info_degraded
    (tickers : list string) (w : World) (i : nat) (sym : string) (e : exn) :
  tickers !! i = Some sym ->
  ticker_info P sym = Raise e ->
  exists records df w',
    company_records P tickers [] w = (Ok records, w') /\
    extract_yahoo_company_info P tickers w = (Ok df, w') /\
    df = dataframe_of_records records /\
    length records = length tickers /\
    records !! i = Some [("symbol", PyStr sym);
                         ("ingested_at", PyTime (now_seq w (reads w + i)));
                         ("error", PyStr (exn_str e))] /\
    (exists row, rows df !! i = Some row /\
       forall c, lookup_cell (columns df) row c =
                 record_get [("symbol", PyStr sym);
                             ("ingested_at", PyTime (now_seq w (reads w + i)));
                             ("error", PyStr (exn_str e))] c) /\
    (forall j s, tickers !! j = Some s ->
       exists r, records !! j = Some r /\ record_get r "symbol" = PyStr s).
Proof.
  intros Hi He.
  assert (Hrec : records_of P tickers w !! i =
                 Some (degraded_record sym (now_seq w (reads w + i)) e)).
  { rewrite records_of_lookup, Hi. cbn. unfold step_record. now rewrite He. }
  exists (records_of P tickers w), (dataframe_of_records (records_of P tickers w)),
    (Nat.iter (length tickers) tick w).
  split; [now rewrite company_records_eq|].
  split; [apply extract_yahoo_company_info_eq|].
  split; [reflexivity|].
  split; [unfold records_of; apply length_imap|].
  split; [exact Hrec|].
  split.
  - eexists. split.
    + cbn [dataframe_of_records rows].
      change (@map PyRecord) with (@fmap list _ PyRecord).
      rewrite list_lookup_fmap, Hrec. reflexivity.
    + intros c.
      rewrite (record_row_cell (records_of P tickers w))
        by (apply list_elem_of_In, list_elem_of_lookup; eexists; exact Hrec).
      apply null_cell_degraded.
  - intros j s Hj. eexists. split.
    + rewrite records_of_lookup, Hj. reflexivity.
    + apply step_record_symbol.
Qed.

End CompanyInfo.

Lemma records_of_symbol (P : Provider) (tickers : list string) (w : World)
    (r : PyRecord) :
  In r (records_of P tickers w) -> exists s, record_get r "symbol" = PyStr s.
Proof.
  intros H. apply list_elem_of_In, list_elem_of_lookup in H as [i H].
  rewrite records_of_lookup in H.
  destruct (tickers !! i) as [sym|]; [|discriminate].
  cbn in H. injection H as <-. exists sym. apply step_record_symbol.
Qed.

Lemma extract_yahoo_company_info_degraded_witness :
  ["AAA"; "BBB"] !! 1%nat = Some "BBB" /\
  ticker_info sample_provider "BBB" = Raise (mkExn "HTTPError" "404 Client Error") /\
  exists df w',
    extract_yahoo_company_info sample_provider ["AAA"; "BBB"] sample_world = (Ok df, w') /\
    exists row, rows df !! 1%nat = Some row /\
      lookup_cell (columns df) row "error" = PyStr "404 Client Error" /\
      lookup_cell (columns df) row "sector" = PyNaN.
Proof.
  split; [reflexivity|]. split; [reflexivity|].
  destruct (extract_yahoo_company_info_degraded sample_provider
              ["AAA"; "BBB"] sample_world 1 "BBB"
              (mkExn "HTTPError" "404 Client Error") eq_refl eq_refl)
    as (records & df & w' & _ & Hdf & _ & _ & _ & (row & Hrow & Hcell) & _).
  exists df, w'. split; [exact Hdf|].
  exists row. split; [exact Hrow|].
  split; rewrite Hcell; reflexivity.
Defined.

(** C10: the table has one row per input symbol, in the order of the
    input list: row [i] carries the [i]-th symbol. *)
Theorem extract_yahoo_company_info_one_row_per_symbol
    (P : Provider) (tickers : list string) (w : World) :
  exists df w',
    extract_yahoo_company_info P tickers w = (Ok df, w') /\
    length (rows df) = length tickers /\
    frame_column "symbol" df = map PyStr tickers.
Proof.
  eexists _, _. split; [apply extract_yahoo_company_info_eq|].
  cbn [dataframe_of_records rows columns]. split.
  - rewrite length_map. unfold records_of. apply length_imap.
  - unfold frame_column. cbn [rows columns dataframe_of_records].
    rewrite map_map.
    transitivity (map (fun r => record_get r "symbol") (records_of P tickers w)).
    + apply map_ext_in. intros r Hr.
      rewrite (record_row_cell (records_of P tickers w)) by assumption.
      apply records_of_symbol in Hr as [s' ->]. reflexivity.
    + apply list_eq. intros i.
      change (@map PyRecord) with (@fmap list _ PyRecord).
      change (@map string) with (@fmap list _ string).
      rewrite !list_lookup_fmap, records_of_lookup.
      destruct (tickers !! i); cbn; [|reflexivity].
      now rewrite step_record_symbol.
Qed.

(** ** yahoo_prices.py *)

Section Prices.

Lemma try_except_reraise {A} (m : M A) (w : World) :
  try_except m (fun e => raise e) w = m w.
Proof. unfold try_except, raise. destruct (m w) as [[a|e] w']; reflexivity. Qed.

Lemma row_has_na_false (subset cols : list string) (row : list pyval) :
  row_has_na subset cols row = false ->
  forall (i : nat) c v,
    cols !! i = Some c -> mem c subset = true -> row !! i = Some v ->
    isna v = false.
Proof.
  revert row. induction cols as [|x cols IH]; intros [|y row] H i c v Hc Hm Hv;
    try (destruct i; discriminate).
  simpl in H. apply orb_false_iff in H as [H1 H2].
  destruct i as [|i]; simpl in Hc, Hv.
  - injection Hc as ->. injection Hv as ->. rewrite Hm in H1. exact H1.
  - eapply IH; eassumption.
Qed.

Lemma dropna_no_na (subset : list string) (f df : Frame) :
  dropna subset f = Ok df ->
  forall row, In row (rows df) ->
  forall (i : nat) c v,
    columns df !! i = Some c -> mem c subset = true -> row !! i = Some v ->
    isna v = false.
Proof.
  unfold dropna. destruct (forallb _ subset); [|discriminate].
  intros [= <-] row Hrow. cbn [rows columns] in *.
  apply filter_In in Hrow as [_ Hrow]. apply negb_true_iff in Hrow.
  now apply row_has_na_false.
Qed.

Lemma normalise_prices_no_na (df0 df : Frame) (w w' : World) :
  normalise_prices df0 w = (Ok df, w') ->
  forall row, In row (rows df) ->
  forall (i : nat) c v,
    columns df !! i = Some c -> mem c critical_columns = true ->
    row !! i = Some v -> isna v = false.
Proof.
  unfold normalise_prices, bind, lift, ret, datetime_now.
  destruct (select_columns _ _) as [df1|e]; [|discriminate].
  destruct (dropna _ _) as [df2|e] eqn:D; [|discriminate].
  intros [= <- _]. now apply (dropna_no_na _ _ _ D).
Qed.

(** The labels on the way through lines 83-102. *)
Lemma select_raw (rs : list (list pyval)) :
  select_columns final_columns
    (rename_columns column_mapping (lower_columns (mkFrame raw_columns rs))) =
  Ok (mkFrame final_columns
        (map (fun r => map (fun i => nth i r PyNaN) [7; 0; 1; 2; 3; 4; 5; 6]%nat) rs)).
Proof. reflexivity. Qed.

Lemma normalise_raw (rs : list (list pyval)) (w : World) :
  normalise_prices (mkFrame raw_columns rs) w =
  (Ok (mkFrame output_columns
         (List.filter complete_row
            (map (fun r => map (fun i => nth i r PyNaN) [7; 0; 1; 2; 3; 4; 5; 6]%nat
                           ++ [PyTime (now_seq w (reads w))]) rs))),
   tick w).
Proof.
  unfold normalise_prices, bind, lift. rewrite select_raw.
  unfold datetime_now, setitem, dropna, ret.
  cbn [columns rows]. change (mem "ingested_at" final_columns) with false.
  cbn iota. cbn [columns rows].
  change (forallb _ critical_columns) with true. cbn iota.
  now rewrite map_map.
Qed.

Lemma reorder_raw_row (t : string) (now : DateTime) (r : pyval * list pyval) :
  length (snd r) = 6%nat ->
  map (fun i => nth i (raw_row t r) PyNaN) [7; 0; 1; 2; 3; 4; 5; 6]%nat
    ++ [PyTime now] = price_row t now r.
Proof.
  destruct r as [d cells]. cbn [snd fst]. intros H.
  do 7 (destruct cells as [|? cells]; try discriminate). reflexivity.
Qed.

Lemma isetitem_reset (t : string) (f : IFrame) :
  price_frame f ->
  reset_index (isetitem "symbol" (PyStr t) f) =
  Ok (mkFrame raw_columns (map (raw_row t) (irows f))).
Proof.
  destruct f as [n cols rs]. intros (Hn & Hc & _). cbn in Hn, Hc. subst.
  unfold isetitem, reset_index. cbn. now rewrite map_map.
Qed.

Lemma collect_frames_ok (data : gmap string IFrame) :
  (forall t f, data !! t = Some f -> price_frame f) ->
  forall tickers acc,
    collect_frames data tickers acc = Ok (acc ++ present_frames data tickers).
Proof.
  intros Hshape. induction tickers as [|t rest IH]; intros acc.
  - cbn. now rewrite app_nil_r.
  - cbn [collect_frames present_frames flat_map]. unfold ticker_frame.
    destruct (data !! t) as [f|] eqn:E.
    + rewrite isetitem_reset by (eapply Hshape; eassumption).
      rewrite IH. now rewrite <- app_assoc.
    + cbn. now rewrite IH.
Qed.

Lemma present_frames_columns (data : gmap string IFrame) (tickers : list string) :
  List.Forall (fun f => columns f = raw_columns) (present_frames data tickers).
Proof.
  apply List.Forall_forall. intros f Hf. unfold present_frames in Hf.
  apply in_flat_map in Hf as (t & _ & Hf).
  destruct (data !! t); [|contradiction].
  destruct Hf as [<-|[]]. reflexivity.
Qed.

Lemma pd_concat_raw (dfs : list Frame) :
  dfs <> [] -> List.Forall (fun f => columns f = raw_columns) dfs ->
  pd_concat dfs = Ok (mkFrame raw_columns (flat_map rows dfs)).
Proof.
  intros Hne Hall. destruct dfs as [|f0 dfs]; [congruence|].
  unfold pd_concat.
  assert (forallb (same_columns (columns f0)) (f0 :: dfs) = true) as ->.
  { apply forallb_forall. intros f Hf. unfold same_columns.
    apply bool_decide_eq_true.
    rewrite List.Forall_forall in Hall.
    rewrite (Hall f Hf). symmetry. apply Hall. now left. }
  f_equal. f_equal. apply (List.Forall_inv Hall).
Qed.

Lemma present_frames_rows (data : gmap string IFrame) (now : DateTime)
    (tickers : list string) :
  (forall t f, data !! t = Some f -> price_frame f) ->
  map (fun r => map (fun i => nth i r PyNaN) [7; 0; 1; 2; 3; 4; 5; 6]%nat
                ++ [PyTime now])
      (flat_map rows (present_frames data tickers))
  = flat_map (ticker_rows data now) tickers.
Proof.
  intros Hshape. induction tickers as [|t rest IH]; [reflexivity|].
  cbn [present_frames flat_map]. fold (present_frames data rest).
  rewrite flat_map_app, map_app, IH. f_equal.
  unfold ticker_rows. destruct (data !! t) as [f|] eqn:E; [|reflexivity].
  cbn [flat_map rows]. rewrite app_nil_r, map_map.
  apply map_ext_in. intros r Hr. apply reorder_raw_row.
  destruct (Hshape t f E) as (_ & _ & Hlen).
  rewrite List.Forall_forall in Hlen. now apply Hlen.
Qed.

Lemma present_frames_nil (data : gmap string IFrame) (tickers : list string) :
  present_frames data tickers = [] ->
  forall t, In t tickers -> data !! t = None.
Proof.
  induction tickers as [|x rest IH]; intros H t Ht; [contradiction|].
  cbn [present_frames flat_map] in H. apply app_eq_nil in H as [H1 H2].
  destruct Ht as [<-|Ht]; [|now apply IH].
  destruct (data !! x); [discriminate | reflexivity].
Qed.

(** The grouped path, lines 65-112, once the download has answered. *)
Lemma prices_many (P : Provider) (tickers : list string) (window : Window)
    (data : gmap string IFrame) (w : World) :
  length tickers <> 1%nat ->
  download_many P tickers window = Ok data ->
  (forall t f, data !! t = Some f -> price_frame f) ->
  prices_for_window P tickers window w =
  match present_frames data tickers with
  | [] => (Ok empty_frame, w)
  | _ => (Ok (mkFrame output_columns
                (List.filter complete_row
                   (flat_map (ticker_rows data (now_seq w (reads w))) tickers))),
          tick w)
  end.
Proof.
  intros Hlen Hd Hshape. unfold prices_for_window.
  rewrite try_except_reraise.
  assert (forall m : M Frame,
            match tickers with [_] => m | _ =>
              (data <- lift (download_many P tickers window) ;;
               dfs <- lift (collect_frames data tickers []) ;;
               match dfs with
               | [] => ret empty_frame
               | _ => (df <- lift (pd_concat dfs) ;; normalise_prices df)
               end)%py
            end w =
            (data <- lift (download_many P tickers window) ;;
               dfs <- lift (collect_frames data tickers []) ;;
               match dfs with
               | [] => ret empty_frame
               | _ => (df <- lift (pd_concat dfs) ;; normalise_prices df)
               end)%py w) as Hm.
  { intros m. destruct tickers as [|a [|b rest]]; [reflexivity| |reflexivity].
    cbn in Hlen. congruence. }
  etransitivity; [|etransitivity; [apply (Hm (ret empty_frame))|]].
  { destruct tickers as [|a [|b rest]]; try reflexivity. cbn in Hlen. congruence. }
  unfold bind at 1, lift at 1. rewrite Hd.
  unfold bind at 1, lift at 1. rewrite (collect_frames_ok data Hshape). cbn [app].
  pose proof (present_frames_columns data tickers) as Hcols.
  pose proof (present_frames_rows data (now_seq w (reads w)) tickers Hshape) as Hrows.
  destruct (present_frames data tickers) as [|f0 dfs] eqn:E; [reflexivity|].
  unfold bind, lift. rewrite (pd_concat_raw (f0 :: dfs)) by (congruence || assumption).
  rewrite normalise_raw. now rewrite Hrows.
Qed.

(** The path of a single ticker, lines 59-63 and 83-112. *)
Lemma prices_one (P : Provider) (t : string) (window : Window)
    (f : IFrame) (w : World) :
  download_one P t window = Ok f -> price_frame f ->
  prices_for_window P [t] window w =
  (Ok (mkFrame output_columns
         (List.filter complete_row
            (map (price_row t (now_seq w (reads w))) (irows f)))),
   tick w).
Proof.
  intros Hd Hf. unfold prices_for_window. rewrite try_except_reraise.
  unfold bind at 1, lift at 1. rewrite Hd.
  unfold bind at 1, lift at 1. rewrite (isetitem_reset t f Hf).
  rewrite normalise_raw. f_equal. f_equal. f_equal. f_equal.
  rewrite map_map. apply map_ext_in. intros r Hr. apply reorder_raw_row.
  destruct Hf as (_ & _ & Hlen). rewrite List.Forall_forall in Hlen. now apply Hlen.
Qed.

(** With a provider of price frames the extractor raises exactly what
    the download raised, and only then. *)
Lemma prices_raise (P : Provider) (tickers : list string) (window : Window)
    (w w' : World) (e : exn) :
  price_provider P ->
  prices_for_window P tickers window w = (Raise e, w') ->
  download_result P tickers window = Raise e.
Proof.
  intros [Hone Hmany] H. unfold download_result.
  destruct (Nat.eq_dec (length tickers) 1%nat) as [L|L].
  - destruct tickers as [|t [|? ?]]; try discriminate.
    destruct (download_one P t window) as [f|e0] eqn:D.
    + rewrite (prices_one P t window f w D (Hone _ _ _ D)) in H. discriminate.
    + unfold prices_for_window in H. rewrite try_except_reraise in H.
      unfold bind, lift in H. rewrite D in H. congruence.
  - assert (download_many P tickers window = Raise e) as D'.
    { destruct (download_many P tickers window) as [data|e0] eqn:D.
      - rewrite (prices_many P tickers window data w L D) in H
          by (intros; eapply Hmany; eassumption).
        destruct (present_frames data tickers); discriminate.
      - unfold prices_for_window in H. rewrite try_except_reraise in H.
        destruct tickers as [|a [|b rest]]; try (cbn in L; congruence);
          unfold bind, lift in H; rewrite D in H; congruence. }
    destruct tickers as [|a [|b rest]]; try (cbn in L; congruence);
      now rewrite D'.
Qed.

(** The extractor uses the provider through the one download it sends. *)
Lemma prices_for_window_ext (P P' : Provider) (tickers : list string)
    (window : Window) (w : World) :
  same_answer P P' tickers window ->
  prices_for_window P' tickers window w = prices_for_window P tickers window w.
Proof.
  intros H. unfold prices_for_window. rewrite !try_except_reraise.
  destruct tickers as [|a [|b rest]]; cbn [same_answer] in H;
    unfold bind at 1, lift at 1; rewrite H; reflexivity.
Qed.

Lemma prices_for_window_raise (P : Provider) (tickers : list string)
    (window : Window) (w : World) (e : exn) :
  download_result P tickers window = Raise e ->
  prices_for_window P tickers window w = (Raise e, w).
Proof.
  intros H. unfold prices_for_window. rewrite try_except_reraise.
  unfold download_result in H.
  destruct tickers as [|a [|b rest]]; unfold bind at 1, lift at 1;
    match goal with
    | H : match ?d with _ => _ end = _ |- _ => destruct d; [discriminate|]
    end; now injection H as ->.
Qed.

End Prices.

Section PriceClaims.

Lemma sample_prices_frame : price_frame sample_prices.
Proof. repeat split; repeat constructor. Qed.

Lemma sample_provider_prices : price_provider sample_provider.
Proof.
  split.
  - intros t win f [= <-]. apply sample_prices_frame.
  - intros ts win data t f [= <-] H.
    apply lookup_singleton_Some in H as [_ <-]. apply sample_prices_frame.
Qed.

Example extract_yahoo_prices_sample :
  fst (extract_yahoo_prices sample_provider ["AAA"; "BBB"] None None "5d"
         sample_world) = Ok sample_output.
Proof. vm_compute. reflexivity. Qed.

(** C2: with a provider whose successful fetches are price frames, a
    request for several tickers of which at least one has data returns
    a table (it does not raise) holding exactly the rows of the tickers
    that have data, in input order and without those that lack [close]
    or [volume]; tickers without data contribute nothing.  And whenever
    the extractor raises, it raises the exception of the aggregate
    download request. *)
Theorem extract_yahoo_prices_partial_failure
    (P : Provider) (tickers : list string) (start_date end_date : option string)
    (period : string) (w : World) :
  price_provider P ->
  (forall data,
     length tickers <> 1%nat ->
     download_many P tickers (request_window start_date end_date period) = Ok data ->
     (exists t, In t tickers /\ is_Some (data !! t)) ->
     extract_yahoo_prices P tickers start_date end_date period w =
     (Ok (mkFrame output_columns
            (List.filter complete_row
               (flat_map (ticker_rows data (now_seq w (reads w))) tickers))),
      tick w)) /\
  (forall e w',
     extract_yahoo_prices P tickers start_date end_date period w = (Raise e, w') ->
     download_result P tickers (request_window start_date end_date period) = Raise e).
Proof.
  intros HP. split.
  - intros data Hlen Hd (t & Ht & [f Hf]). unfold extract_yahoo_prices.
    rewrite (prices_many P tickers _ data w Hlen Hd)
      by (intros; eapply (proj2 HP); eassumption).
    destruct (present_frames data tickers) eqn:E; [|reflexivity].
    rewrite (present_frames_nil data tickers E t Ht) in Hf. discriminate.
  - intros e w' H. eapply prices_raise; eassumption.
Qed.

Lemma extract_yahoo_prices_partial_failure_witness :
  price_provider sample_provider /\
  extract_yahoo_prices sample_provider ["AAA"; "BBB"] None None "5d" sample_world =
  (Ok (mkFrame output_columns
         (List.filter complete_row
            (flat_map (ticker_rows {[ "AAA" := sample_prices ]}
                         (now_seq sample_world (reads sample_world)))
                      ["AAA"; "BBB"]))),
   tick sample_world).
Proof.
  split; [exact sample_provider_prices|].
  apply (proj1 (extract_yahoo_prices_partial_failure sample_provider
                  ["AAA"; "BBB"] None None "5d" sample_world
                  sample_provider_prices)).
  - simpl. lia.
  - reflexivity.
  - exists "AAA". split; [simpl; tauto|]. exists sample_prices. reflexivity.
Defined.

(** C7: whenever the price extractor returns a table, no row of it has
    a null cell under [close] or under [volume]. *)
Theorem extract_yahoo_prices_no_null_close_volume
    (P : Provider) (tickers : list string) (start_date end_date : option string)
    (period : string) (w w' : World) (df : Frame) :
  extract_yahoo_prices P tickers start_date end_date period w = (Ok df, w') ->
  forall row, In row (rows df) ->
  forall (i : nat) (c : string) (v : pyval),
    columns df !! i = Some c -> c = "close" \/ c = "volume" ->
    row !! i = Some v -> isna v = false.
Proof.
  unfold extract_yahoo_prices, prices_for_window.
  rewrite try_except_reraise.
  set (win := request_window start_date end_date period).
  intros H row Hrow i c v Hc Hcv Hv.
  assert (Hm : mem c critical_columns = true) by (destruct Hcv; subst; reflexivity).
  assert (Hmany :
    (data <- lift (download_many P tickers win) ;;
     dfs <- lift (collect_frames data tickers []) ;;
     match dfs with
     | [] => ret empty_frame
     | _ => (df <- lift (pd_concat dfs) ;; normalise_prices df)
     end)%py w = (Ok df, w') -> isna v = false).
  { unfold bind, lift. destruct (download_many P tickers win); [|discriminate].
    destruct (collect_frames _ tickers []) as [[|f0 dfs]|]; [| |discriminate].
    - intros [= <- _]. contradiction.
    - destruct (pd_concat (f0 :: dfs)) as [df0|]; [|discriminate].
      intros H0. eapply normalise_prices_no_na; eassumption. }
  destruct tickers as [|t [|t' rest]]; [now apply Hmany| |now apply Hmany].
  unfold bind, lift in H. destruct (download_one P t win); [|discriminate].
  destruct (reset_index _) as [df0|]; [|discriminate].
  eapply normalise_prices_no_na; eassumption.
Qed.

Lemma extract_yahoo_prices_no_null_close_volume_witness :
  extract_yahoo_prices sample_provider ["AAA"; "BBB"] None None "5d" sample_world
  = (Ok sample_output, tick sample_world) /\
  forall row, In row (rows sample_output) ->
  forall (i : nat) (c : string) (v : pyval),
    columns sample_output !! i = Some c -> c = "close" \/ c = "volume" ->
    row !! i = Some v -> isna v = false.
Proof.
  assert (H : extract_yahoo_prices sample_provider ["AAA"; "BBB"] None None "5d"
                sample_world = (Ok sample_output, tick sample_world))
    by reflexivity.
  split; [exact H|].
  exact (extract_yahoo_prices_no_null_close_volume sample_provider
           ["AAA"; "BBB"] None None "5d" sample_world (tick sample_world)
           sample_output H).
Defined.

(** C8: when [start_date] and [end_date] are both given (non-empty),
    the download is asked for that range, whatever [period] is: the
    result is that of the range; it is the same for every provider
    that answers the request for the range in the same way, whatever
    it would answer for a period; an exception of the request for the
    range is raised; and the rows of the table are those of the frames
    that the request for the range returned. *)
Theorem extract_yahoo_prices_range_precedence
    (P : Provider) (tickers : list string) (s e period : string) (w : World) :
  s <> "" -> e <> "" ->
  request_window (Some s) (Some e) period = Range s e /\
  extract_yahoo_prices P tickers (Some s) (Some e) period w =
    prices_for_window P tickers (Range s e) w /\
  (forall period',
     extract_yahoo_prices P tickers (Some s) (Some e) period' w =
     extract_yahoo_prices P tickers (Some s) (Some e) period w) /\
  (forall P' period',
     same_answer P P' tickers (Range s e) ->
     extract_yahoo_prices P' tickers (Some s) (Some e) period' w =
     extract_yahoo_prices P tickers (Some s) (Some e) period w) /\
  (forall err,
     download_result P tickers (Range s e) = Raise err ->
     extract_yahoo_prices P tickers (Some s) (Some e) period w = (Raise err, w)) /\
  (forall t f,
     tickers = [t] -> download_one P t (Range s e) = Ok f -> price_frame f ->
     extract_yahoo_prices P tickers (Some s) (Some e) period w =
     (Ok (mkFrame output_columns
            (List.filter complete_row
               (map (price_row t (now_seq w (reads w))) (irows f)))),
      tick w)) /\
  (forall data,
     length tickers <> 1%nat ->
     download_many P tickers (Range s e) = Ok data ->
     (forall t f, data !! t = Some f -> price_frame f) ->
     (exists t, In t tickers /\ is_Some (data !! t)) ->
     extract_yahoo_prices P tickers (Some s) (Some e) period w =
     (Ok (mkFrame output_columns
            (List.filter complete_row
               (flat_map (ticker_rows data (now_seq w (reads w))) tickers))),
      tick w)).
Proof.
  intros Hs He.
  assert (R : forall p, request_window (Some s) (Some e) p = Range s e).
  { intros p. unfold request_window, truthy.
    apply String.eqb_neq in Hs, He. now rewrite Hs, He. }
  unfold extract_yahoo_prices. rewrite R.
  split; [reflexivity|]. split; [reflexivity|].
  split; [intros p'; now rewrite R|].
  split; [intros P' p' H; rewrite R; now apply prices_for_window_ext|].
  split; [intros err H; now apply prices_for_window_raise|].
  split.
  - intros t f -> Hd Hf. now apply prices_one.
  - intros data Hlen Hd Hshape (t & Ht & [f Hf]).
    rewrite (prices_many P tickers _ data w Hlen Hd Hshape).
    destruct (present_frames data tickers) eqn:E; [|reflexivity].
    rewrite (present_frames_nil data tickers E t Ht) in Hf. discriminate.
Qed.

Lemma extract_yahoo_prices_range_precedence_witness :
  "2024-01-01" <> "" /\ "2024-01-31" <> "" /\
  extract_yahoo_prices (only_window (Range "2024-01-01" "2024-01-31"))
    ["AAA"; "BBB"] (Some "2024-01-01") (Some "2024-01-31") "5d" sample_world =
  (Ok sample_output, tick sample_world) /\
  extract_yahoo_prices (only_window (Period "5d"))
    ["AAA"; "BBB"] (Some "2024-01-01") (Some "2024-01-31") "5d" sample_world =
  (Raise (mkExn "ValueError" "other window requested"), sample_world).
Proof.
  assert (H1 : "2024-01-01" <> "") by discriminate.
  assert (H2 : "2024-01-31" <> "") by discriminate.
  split; [exact H1|]. split; [exact H2|]. split.
  - destruct (extract_yahoo_prices_range_precedence sample_provider
                ["AAA"; "BBB"] "2024-01-01" "2024-01-31" "5d" sample_world H1 H2)
      as (_ & _ & _ & Hext & _).
    rewrite (Hext (only_window (Range "2024-01-01" "2024-01-31")) "5d" eq_refl).
    reflexivity.
  - destruct (extract_yahoo_prices_range_precedence (only_window (Period "5d"))
                ["AAA"; "BBB"] "2024-01-01" "2024-01-31" "5d" sample_world H1 H2)
      as (_ & _ & _ & _ & Hraise & _).
    apply Hraise. reflexivity.
Defined.

(** A start date alone is not a range: the period is used. *)
Example request_window_start_only :
  request_window (Some "2024-01-01") None "5d" = Period "5d".
Proof. reflexivity. Qed.

(** C9 (as stated, refuted): for the empty list the price extractor
    still sends the download request, and raises when that raises. *)
Lemma extract_yahoo_prices_empty_list_raises :
  fst (extract_yahoo_prices failing_provider [] None None default_period
         sample_world)
  = Raise (mkExn "ValueError" "No objects to concatenate").
Proof. reflexivity. Qed.

(** C9 (amended): for the empty list the company-information extractor
    returns the empty table; the price extractor sends its download
    request, returns the empty table when the request is answered and
    raises the exception of the request otherwise. *)
Theorem extractors_empty_list
    (P : Provider) (start_date end_date : option string) (period : string)
    (w : World) :
  extract_yahoo_company_info P [] w = (Ok empty_frame, w) /\
  rows empty_frame = [] /\
  extract_yahoo_prices P [] start_date end_date period w =
  (match download_many P [] (request_window start_date end_date period) with
   | Ok _ => Ok empty_frame
   | Raise e => Raise e
   end, w).
Proof.
  split; [reflexivity|]. split; [reflexivity|].
  unfold extract_yahoo_prices, prices_for_window.
  rewrite try_except_reraise. unfold bind, lift.
  destruct (download_many P [] _); reflexivity.
Qed.

End PriceClaims.

(** ** Further properties of state_store.py *)

Section StateStoreMore.

Lemma lex_compare_app_same (k : list Z) (a b : Z) :
  lex_compare (k ++ [a]) (k ++ [b]) = (a ?= b).
Proof.
  induction k as [|x k IH]; simpl.
  - now destruct (a ?= b).
  - now rewrite Z.compare_refl.
Qed.

(** X1: of two run ids made in the same clock second, the one whose
    UUID has the smaller first 32 bits is the smaller string, whichever
    was made first. *)
Theorem generate_run_id_same_second_order (w1 w2 : World) :
  valid_datetime (now_seq w1 (reads w1)) ->
  valid_datetime (now_seq w2 (reads w2)) ->
  second_key (now_seq w1 (reads w1)) = second_key (now_seq w2 (reads w2)) ->
  exists id1 id2 w1' w2',
    generate_run_id w1 = (Ok id1, w1') /\
    generate_run_id w2 = (Ok id2, w2') /\
    String.compare id1 id2 =
    ((uuid_seq w1 (draws w1) mod 2 ^ 128) / 2 ^ 96
     ?= (uuid_seq w2 (draws w2) mod 2 ^ 128) / 2 ^ 96).
Proof.
  intros V1 V2 K. eexists _, _, _, _.
  split; [apply generate_run_id_eq|]. split; [apply generate_run_id_eq|].
  assert (W : year (now_seq w1 (reads w1)) = year (now_seq w2 (reads w2)))
    by (unfold second_key in K; now injection K).
  rewrite run_id_compare; try assumption; try (apply Z.mod_pos_bound; lia);
    [|now rewrite W].
  unfold run_id_key. rewrite K. apply lex_compare_app_same.
Qed.

Lemma generate_run_id_same_second_order_witness :
  exists id1 id2 w1' w2',
    generate_run_id reversing_world = (Ok id1, w1') /\
    generate_run_id (after_run_id reversing_world) = (Ok id2, w2') /\
    String.compare id1 id2 = Gt.
Proof.
  destruct (generate_run_id_same_second_order reversing_world
              (after_run_id reversing_world))
    as (id1 & id2 & w1' & w2' & H1 & H2 & H3).
  - vm_compute. intuition discriminate.
  - vm_compute. intuition discriminate.
  - reflexivity.
  - exists id1, id2, w1', w2'. split; [exact H1|]. split; [exact H2|].
    rewrite H3. reflexivity.
Defined.

(** X2: every call of [create_run_metadata] draws an id of its own.  The
    records of two calls in succession (say the started and the
    completed record of one attempt) carry the same [run_id] exactly
    when the two ids were drawn in the same second with UUIDs that
    agree on their first 32 bits. *)
Theorem create_run_metadata_twice
    (d1 s1 : string) (l1 : Z) (e1 : option string)
    (d2 s2 : string) (l2 : Z) (e2 : option string) (w : World) :
  valid_datetime (now_seq w (reads w)) ->
  valid_datetime (now_seq w (reads w + 2)) ->
  exists r1 w1 r2 w2,
    create_run_metadata d1 s1 l1 e1 w = (Ok r1, w1) /\
    create_run_metadata d2 s2 l2 e2 w1 = (Ok r2, w2) /\
    reads w2 = (reads w + 4)%nat /\ draws w2 = (draws w + 2)%nat /\
    (run_id r1 = run_id r2 <->
     run_id_key (now_seq w (reads w)) (uuid_seq w (draws w) mod 2 ^ 128) =
     run_id_key (now_seq w (reads w + 2))
                (uuid_seq w (draws w + 1) mod 2 ^ 128)).
Proof.
  intros V1 V2. eexists _, _, _, _.
  split; [reflexivity|]. split; [reflexivity|].
  cbn [reads draws run_id now_seq uuid_seq].
  split; [lia|]. split; [lia|].
  replace (S (S (reads w))) with (reads w + 2)%nat by lia.
  replace (S (draws w)) with (draws w + 1)%nat by lia.
  apply run_id_of_inj; try assumption; apply Z.mod_pos_bound; lia.
Qed.

Lemma create_run_metadata_twice_witness :
  exists r1 w1 r2 w2,
    create_run_metadata "prices" "started" 0 None sample_world = (Ok r1, w1) /\
    create_run_metadata "prices" "completed" 42 None w1 = (Ok r2, w2) /\
    run_id r1 <> run_id r2.
Proof.
  destruct (create_run_metadata_twice "prices" "started" 0 None
              "prices" "completed" 42 None sample_world)
    as (r1 & w1 & r2 & w2 & H1 & H2 & _ & _ & H3).
  - vm_compute. intuition discriminate.
  - vm_compute. intuition discriminate.
  - exists r1, w1, r2, w2. split; [exact H1|]. split; [exact H2|].
    intros E. apply H3 in E. vm_compute in E. discriminate E.
Defined.

End StateStoreMore.

(** ** Further properties of yahoo_prices.py *)

Section PricesMore.

(** X3: unless [start_date] and [end_date] are both given and non-empty,
    the download is asked for [period]: a start date alone, or an end
    date alone, is ignored.  The result equals that of a call without
    dates, it is the same for every provider that answers the request
    for the period in the same way, and an exception of the request
    for the period is raised. *)
Theorem extract_yahoo_prices_period_fallback
    (P : Provider) (tickers : list string) (start_date end_date : option string)
    (period : string) (w : World) :
  truthy start_date && truthy end_date = false ->
  request_window start_date end_date period = Period period /\
  extract_yahoo_prices P tickers start_date end_date period w =
    extract_yahoo_prices P tickers None None period w /\
  (forall P',
     same_answer P P' tickers (Period period) ->
     extract_yahoo_prices P' tickers start_date end_date period w =
     extract_yahoo_prices P tickers None None period w) /\
  (forall err,
     download_result P tickers (Period period) = Raise err ->
     extract_yahoo_prices P tickers start_date end_date period w =
     (Raise err, w)).
Proof.
  intros H.
  assert (R : request_window start_date end_date period = Period period).
  { unfold request_window. destruct start_date, end_date; try reflexivity.
    now rewrite H. }
  split; [exact R|]. unfold extract_yahoo_prices. rewrite R.
  change (request_window None None period) with (Period period).
  split; [reflexivity|].
  split; [intros P' HP'; now apply prices_for_window_ext|].
  intros err He. now apply prices_for_window_raise.
Qed.

Lemma extract_yahoo_prices_period_fallback_witness :
  extract_yahoo_prices (only_window (Period "1y")) ["AAA"]
    (Some "2024-01-01") None "1y" sample_world =
  extract_yahoo_prices sample_provider ["AAA"] None None "1y" sample_world /\
  extract_yahoo_prices (only_window (Range "2024-01-01" "2024-12-31")) ["AAA"]
    (Some "2024-01-01") None "1y" sample_world =
  (Raise (mkExn "ValueError" "other window requested"), sample_world).
Proof.
  split.
  - destruct (extract_yahoo_prices_period_fallback sample_provider ["AAA"]
                (Some "2024-01-01") None "1y" sample_world eq_refl)
      as (_ & _ & Hext & _).
    apply (Hext (only_window (Period "1y"))). reflexivity.
  - destruct (extract_yahoo_prices_period_fallback
                (only_window (Range "2024-01-01" "2024-12-31")) ["AAA"]
                (Some "2024-01-01") None "1y" sample_world eq_refl)
      as (_ & _ & _ & Hraise).
    apply Hraise. reflexivity.
Defined.

(** X4: for a list of one ticker whose download is a frame of prices,
    the result holds the rows of that frame that have [close] and
    [volume], each labelled with the ticker and stamped with the one
    clock reading of the call; the columns are the nine output columns
    also when no row is left. *)
Theorem extract_yahoo_prices_single
    (P : Provider) (t : string) (start_date end_date : option string)
    (period : string) (f : IFrame) (w : World) :
  download_one P t (request_window start_date end_date period) = Ok f ->
  price_frame f ->
  extract_yahoo_prices P [t] start_date end_date period w =
  (Ok (mkFrame output_columns
         (List.filter complete_row
            (map (price_row t (now_seq w (reads w))) (irows f)))),
   tick w).
Proof. intros Hd Hf. now apply prices_one. Qed.

Lemma extract_yahoo_prices_single_witness :
  extract_yahoo_prices sample_provider ["AAA"] None None "5d" sample_world =
  (Ok (mkFrame output_columns
         (List.filter complete_row
            (map (price_row "AAA" (now_seq sample_world (reads sample_world)))
                 (irows sample_prices)))),
   tick sample_world).
Proof.
  exact (extract_yahoo_prices_single sample_provider "AAA" None None "5d"
           sample_prices sample_world eq_refl sample_prices_frame).
Defined.

Lemma collect_frames_missing (data : gmap string IFrame) (tickers : list string)
    (acc : list Frame) :
  (forall t, In t tickers -> data !! t = None) ->
  collect_frames data tickers acc = Ok acc.
Proof.
  revert acc. induction tickers as [|t rest IH]; intros acc H; [reflexivity|].
  cbn [collect_frames]. unfold ticker_frame.
  rewrite (H t) by now left. cbn. apply IH. intros t' Ht'. apply H. now right.
Qed.

(** The body of the grouped path, for a list that is not a singleton. *)
Lemma prices_for_window_many (P : Provider) (tickers : list string)
    (window : Window) (w : World) :
  length tickers <> 1%nat ->
  prices_for_window P tickers window w =
  (data <- lift (download_many P tickers window) ;;
   dfs <- lift (collect_frames data tickers []) ;;
   match dfs with
   | [] => ret empty_frame
   | _ => (df <- lift (pd_concat dfs) ;; normalise_prices df)
   end)%py w.
Proof.
  intros Hlen. unfold prices_for_window. rewrite try_except_reraise.
  destruct tickers as [|a [|b rest]]; try reflexivity. cbn in Hlen. congruence.
Qed.

(** X5: when the grouped download has no entry for any of the tickers
    (the list is not a singleton), the extractor returns [pd.DataFrame()]:
    no rows and no columns either; it does not raise and does not read
    the clock. *)
Theorem extract_yahoo_prices_no_data
    (P : Provider) (tickers : list string) (start_date end_date : option string)
    (period : string) (data : gmap string IFrame) (w : World) :
  length tickers <> 1%nat ->
  download_many P tickers (request_window start_date end_date period) = Ok data ->
  (forall t, In t tickers -> data !! t = None) ->
  extract_yahoo_prices P tickers start_date end_date period w =
    (Ok empty_frame, w) /\
  columns empty_frame = [] /\ rows empty_frame = [].
Proof.
  intros Hlen Hd Hnone. split; [|split; reflexivity].
  unfold extract_yahoo_prices. rewrite prices_for_window_many by assumption.
  unfold bind, lift. rewrite Hd.
  now rewrite (collect_frames_missing data tickers [] Hnone).
Qed.

Lemma extract_yahoo_prices_no_data_witness :
  extract_yahoo_prices sample_provider ["BBB"; "CCC"] None None "5d" sample_world
    = (Ok empty_frame, sample_world) /\
  columns empty_frame = [] /\ rows empty_frame = [].
Proof.
  apply (extract_yahoo_prices_no_data sample_provider ["BBB"; "CCC"] None None
           "5d" {[ "AAA" := sample_prices ]} sample_world).
  - simpl. lia.
  - reflexivity.
  - intros t [<-|[<-|[]]]; reflexivity.
Defined.

Lemma collect_frames_abort (data : gmap string IFrame)
    (pre post : list string) (t : string) (e : exn) (acc : list Frame) :
  (forall t' e', In t' pre -> ticker_frame data t' = Raise e' ->
                 is_KeyError e' = true) ->
  ticker_frame data t = Raise e -> is_KeyError e = false ->
  collect_frames data (pre ++ t :: post) acc = Raise e.
Proof.
  revert acc. induction pre as [|x pre IH]; intros acc Hpre Ht He.
  - cbn [app collect_frames]. now rewrite Ht, He.
  - cbn [app collect_frames].
    destruct (ticker_frame data x) as [fx|ex] eqn:Ex.
    + apply IH; try assumption. intros t' e' Hin. apply Hpre. now right.
    + rewrite (Hpre x ex (or_introl eq_refl) Ex).
      apply IH; try assumption. intros t' e' Hin. apply Hpre. now right.
Qed.

(** X6: in the loop over the tickers only a [KeyError] is skipped.  When
    preparing the frame of one ticker raises anything else (such as the
    [ValueError] of [reset_index()]), and no earlier ticker did, the
    whole extraction raises that exception, whatever data the other
    tickers have. *)
Theorem extract_yahoo_prices_loop_abort
    (P : Provider) (pre post : list string) (t : string)
    (start_date end_date : option string) (period : string)
    (data : gmap string IFrame) (e : exn) (w : World) :
  length (pre ++ t :: post) <> 1%nat ->
  download_many P (pre ++ t :: post) (request_window start_date end_date period)
    = Ok data ->
  (forall t' e', In t' pre -> ticker_frame data t' = Raise e' ->
                 is_KeyError e' = true) ->
  ticker_frame data t = Raise e -> is_KeyError e = false ->
  extract_yahoo_prices P (pre ++ t :: post) start_date end_date period w =
  (Raise e, w).
Proof.
  intros Hlen Hd Hpre Ht He. unfold extract_yahoo_prices.
  rewrite prices_for_window_many by assumption.
  unfold bind, lift. rewrite Hd.
  now rewrite (collect_frames_abort data pre post t e [] Hpre Ht He).
Qed.

Lemma extract_yahoo_prices_loop_abort_witness :
  extract_yahoo_prices odd_provider (["AAA"] ++ "BAD" :: ["CCC"]) None None "5d"
    sample_world =
  (Raise (mkExn "ValueError" "cannot insert Close, already exists"), sample_world).
Proof.
  apply (extract_yahoo_prices_loop_abort odd_provider ["AAA"] ["CCC"] "BAD"
           None None "5d"
           {[ "AAA" := sample_prices; "BAD" := clashing_prices ]}).
  - simpl. lia.
  - reflexivity.
  - intros t' e' [<-|[]] H. vm_compute in H. discriminate H.
  - reflexivity.
  - reflexivity.
Defined.

Lemma positions_label (n : string) (cols : list string) (off i : nat) :
  In i (positions n cols off) ->
  (off <= i)%nat /\ nth (i - off) cols EmptyString = n.
Proof.
  revert off. induction cols as [|c cols IH]; intros off H; [contradiction|].
  cbn [positions] in H.
  assert (Hrest : In i (positions n cols (S off)) ->
                  (off <= i)%nat /\ nth (i - off) (c :: cols) EmptyString = n).
  { intros H'. apply IH in H' as [L E]. split; [lia|].
    replace (i - off)%nat with (S (i - S off)) by lia. exact E. }
  destruct (String.eqb_spec c n) as [->|N]; [|now apply Hrest].
  destruct H as [<-|H]; [|now apply Hrest].
  split; [lia|]. now rewrite Nat.sub_diag.
Qed.

Lemma positions_nonempty (n : string) (cols : list string) (off : nat) :
  mem n cols = true -> positions n cols off <> [].
Proof.
  revert off. induction cols as [|c cols IH]; intros off H; [discriminate|].
  cbn [positions]. cbn [mem] in H.
  destruct (String.eqb c n); [discriminate|]. now apply IH.
Qed.

(** The labels [df[names]] returns are those of [names], each of them. *)
Lemma select_columns_labels (names : list string) (df out : Frame) :
  select_columns names df = Ok out ->
  (forall c, In c (columns out) <-> In c names) /\
  length (rows out) = length (rows df).
Proof.
  unfold select_columns. destruct (forallb _ names) eqn:A; [|discriminate].
  intros [= <-]. cbn [columns rows]. split; [|apply length_map].
  rewrite forallb_forall in A. intros c. rewrite in_map_iff. split.
  - intros (i & <- & Hi). apply in_flat_map in Hi as (n & Hn & Hi).
    apply positions_label in Hi as [_ E]. rewrite Nat.sub_0_r in E.
    now rewrite E.
  - intros Hc. pose proof (positions_nonempty c (columns df) 0 (A c Hc)) as Hne.
    destruct (positions c (columns df) 0) as [|i l] eqn:E; [congruence|].
    assert (Hi : In i (positions c (columns df) 0)) by (rewrite E; now left).
    exists i. split.
    + apply positions_label in Hi as [_ Hi]. now rewrite Nat.sub_0_r in Hi.
    + apply in_flat_map. exists c. split; assumption.
Qed.

Lemma mem_false_In (c : string) (cols : list string) :
  mem c cols = false <-> ~ In c cols.
Proof.
  rewrite <- mem_In. destruct (mem c cols); split; congruence.
Qed.

Lemma mem_app (c : string) (a b : list string) :
  mem c (a ++ b) = mem c a || mem c b.
Proof.
  induction a as [|x a IH]; [reflexivity|].
  cbn [app mem]. now rewrite IH, orb_assoc.
Qed.

(** The two ways lines 83-112 can end. *)
Lemma normalise_prices_cases (df : Frame) (w : World) :
  (forallb (fun n => mem n (normalised_labels df)) final_columns = false /\
   normalise_prices df w = (Raise (KeyError "not in index"), w)) \/
  (forallb (fun n => mem n (normalised_labels df)) final_columns = true /\
   exists out,
     normalise_prices df w = (Ok out, tick w) /\
     (forall c, In c (columns out) <-> In c output_columns) /\
     (length (rows out) <= length (rows df))%nat).
Proof.
  unfold normalise_prices, bind, lift.
  destruct (select_columns final_columns
              (rename_columns column_mapping (lower_columns df))) as [df1|e] eqn:S.
  - right. pose proof (select_columns_labels _ _ _ S) as [Hlab Hlen].
    unfold select_columns in S.
    destruct (forallb _ final_columns) eqn:A; [|discriminate].
    split; [reflexivity|].
    assert (Hing : mem "ingested_at" (columns df1) = false).
    { apply mem_false_In. rewrite Hlab. cbn. intuition discriminate. }
    unfold datetime_now, setitem. rewrite Hing. unfold dropna.
    cbn [columns rows].
    assert (forallb (fun n => mem n (columns df1 ++ ["ingested_at"]))
              critical_columns = true) as ->.
    { cbn [forallb critical_columns]. rewrite !mem_app.
      assert (mem "close" (columns df1) = true) as ->
        by (apply mem_In, Hlab; cbn; tauto).
      assert (mem "volume" (columns df1) = true) as ->
        by (apply mem_In, Hlab; cbn; tauto).
      reflexivity. }
    eexists. split; [reflexivity|]. cbn [columns rows]. split.
    + intros c. unfold output_columns. rewrite !in_app_iff, Hlab. tauto.
    + etransitivity; [apply filter_length_le|].
      rewrite length_map. cbn [rename_columns lower_columns rows] in Hlen. lia.
  - left. unfold select_columns in S.
    destruct (forallb _ final_columns) eqn:A; [discriminate|].
    injection S as <-. split; reflexivity.
Qed.

(** X7: lines 83-112 raise exactly when one of the eight required
    labels is missing after lowercasing and renaming, and then it is
    the [KeyError] of the column selection, raised before the clock is
    read; otherwise they return a table with the nine output labels
    and at most as many rows as before ([dropna] never raises here). *)
Theorem normalise_prices_raises_iff (df : Frame) (w : World) :
  (forallb (fun n => mem n (normalised_labels df)) final_columns = false /\
   normalise_prices df w = (Raise (KeyError "not in index"), w)) \/
  (forallb (fun n => mem n (normalised_labels df)) final_columns = true /\
   exists out,
     normalise_prices df w = (Ok out, tick w) /\
     (forall c, In c (columns out) <-> In c output_columns) /\
     (length (rows out) <= length (rows df))%nat).
Proof. apply normalise_prices_cases. Qed.

Lemma lower_char_idem (c : ascii) : lower_char (lower_char c) = lower_char c.
Proof. destruct c as [[] [] [] [] [] [] [] []]; reflexivity. Qed.

Lemma str_lower_idem (s : string) : str_lower (str_lower s) = str_lower s.
Proof.
  induction s as [|c s IH]; [reflexivity|].
  cbn [str_lower]. now rewrite lower_char_idem, IH.
Qed.

(** X8: the labels of the downloaded table are matched without regard
    to case: lines 83-112 give the same result for a table and for the
    table with its labels lowercased. *)
Theorem normalise_prices_case_insensitive
    (cols : list string) (rs : list (list pyval)) (w : World) :
  normalise_prices (mkFrame cols rs) w =
  normalise_prices (mkFrame (map str_lower cols) rs) w.
Proof.
  unfold normalise_prices, lower_columns. cbn [columns rows].
  rewrite map_map.
  now rewrite (map_ext _ _ (fun c => str_lower_idem c)).
Qed.

Lemma price_row_cells (t : string) (now : DateTime) (r : pyval * list pyval) :
  length (snd r) = 6%nat ->
  length (price_row t now r) = 9%nat /\
  lookup_cell output_columns (price_row t now r) "symbol" = PyStr t /\
  lookup_cell output_columns (price_row t now r) "ingested_at" = PyTime now /\
  complete_row (price_row t now r) =
    negb (isna (lookup_cell price_columns (snd r) "Close")) &&
    negb (isna (lookup_cell price_columns (snd r) "Volume")).
Proof.
  destruct r as [d cells]. cbn [snd]. intros H.
  do 7 (destruct cells as [|? cells]; try discriminate).
  repeat split. unfold complete_row. cbn.
  now rewrite negb_orb, orb_false_r.
Qed.

Lemma downloaded_rows_In (P : Provider) (tickers : list string)
    (window : Window) (now : DateTime) (row : list pyval) :
  price_provider P ->
  In row (downloaded_rows P tickers window now) ->
  exists t r, In t tickers /\ length (snd r) = 6%nat /\ row = price_row t now r.
Proof.
  intros [Hone Hmany] H. unfold downloaded_rows in H.
  assert (Hm : forall data,
             download_many P tickers window = Ok data ->
             In row (flat_map (ticker_rows data now) tickers) ->
             exists t r, In t tickers /\ length (snd r) = 6%nat /\
                         row = price_row t now r).
  { intros data Hd Hin. apply in_flat_map in Hin as (t & Ht & Hin).
    unfold ticker_rows in Hin. destruct (data !! t) as [f|] eqn:E; [|contradiction].
    apply in_map_iff in Hin as (r & <- & Hr).
    destruct (Hmany _ _ _ _ _ Hd E) as (_ & _ & Hlen).
    rewrite List.Forall_forall in Hlen. exists t, r. auto. }
  destruct tickers as [|t [|t' rest]].
  - destruct (download_many P [] window) eqn:D; [eauto | contradiction].
  - destruct (download_one P t window) as [f|] eqn:D; [|contradiction].
    apply in_map_iff in H as (r & <- & Hr).
    destruct (Hone _ _ _ D) as (_ & _ & Hlen).
    rewrite List.Forall_forall in Hlen. exists t, r. split; [now left | auto].
  - destruct (download_many P (t :: t' :: rest) window) eqn:D;
      [eauto | contradiction].
Qed.

(** What a successful call returned, for a provider of price frames. *)
Lemma prices_result (P : Provider) (tickers : list string) (window : Window)
    (w w' : World) (df : Frame) :
  price_provider P ->
  prices_for_window P tickers window w = (Ok df, w') ->
  (df = empty_frame /\ w' = w /\ length tickers <> 1%nat) \/
  (df = mkFrame output_columns
          (List.filter complete_row
             (downloaded_rows P tickers window (now_seq w (reads w)))) /\
   w' = tick w).
Proof.
  intros [Hone Hmany] H.
  destruct (Nat.eq_dec (length tickers) 1%nat) as [L|L].
  - destruct tickers as [|t [|? ?]]; try discriminate. right.
    unfold downloaded_rows.
    destruct (download_one P t window) as [f|e0] eqn:D.
    + rewrite (prices_one P t window f w D (Hone _ _ _ D)) in H.
      injection H as <- <-. split; reflexivity.
    + unfold prices_for_window in H. rewrite try_except_reraise in H.
      unfold bind, lift in H. rewrite D in H. discriminate.
  - destruct (download_many P tickers window) as [data|e0] eqn:D.
    + rewrite (prices_many P tickers window data w L D) in H
        by (intros; eapply Hmany; eassumption).
      destruct (present_frames data tickers).
      * left. injection H as <- <-. auto.
      * right. injection H as <- <-. unfold downloaded_rows. rewrite D.
        destruct tickers as [|a [|b rest]]; try (cbn in L; congruence);
          split; reflexivity.
    + rewrite prices_for_window_many in H by assumption.
      unfold bind, lift in H. rewrite D in H. discriminate.
Qed.

(** X9: for a provider of price frames, a table the extractor returns
    either has exactly the nine output columns, rows of nine cells, and
    cost one clock reading, or it is [pd.DataFrame()] without any
    column, which happens only for a list that is not a singleton. *)
Theorem extract_yahoo_prices_schema
    (P : Provider) (tickers : list string) (start_date end_date : option string)
    (period : string) (w w' : World) (df : Frame) :
  price_provider P ->
  extract_yahoo_prices P tickers start_date end_date period w = (Ok df, w') ->
  (columns df = output_columns /\
   List.Forall (fun row => length row = 9%nat) (rows df) /\ w' = tick w) \/
  (df = empty_frame /\ w' = w /\ length tickers <> 1%nat).
Proof.
  intros HP H. destruct (prices_result _ _ _ _ _ _ HP H) as [E|[-> ->]];
    [now right | left].
  split; [reflexivity|]. split; [|reflexivity].
  apply List.Forall_forall. intros row Hrow. cbn [rows] in Hrow.
  apply filter_In in Hrow as [Hrow _].
  apply (downloaded_rows_In _ _ _ _ _ HP) in Hrow as (t & r & _ & Hlen & ->).
  now apply price_row_cells.
Qed.

Lemma extract_yahoo_prices_schema_witness :
  (columns sample_output = output_columns /\
   List.Forall (fun row => length row = 9%nat) (rows sample_output) /\
   tick sample_world = tick sample_world) \/
  (sample_output = empty_frame /\ tick sample_world = sample_world /\
   length ["AAA"; "BBB"] <> 1%nat).
Proof.
  exact (extract_yahoo_prices_schema sample_provider ["AAA"; "BBB"] None None
           "5d" sample_world (tick sample_world) sample_output
           sample_provider_prices eq_refl).
Defined.

(** X10: for a provider of price frames, every row of the result
    carries one of the requested tickers as [symbol], and all rows
    carry the same [ingested_at]: the one clock reading of the call. *)
Theorem extract_yahoo_prices_row_stamps
    (P : Provider) (tickers : list string) (start_date end_date : option string)
    (period : string) (w w' : World) (df : Frame) :
  price_provider P ->
  extract_yahoo_prices P tickers start_date end_date period w = (Ok df, w') ->
  forall row, In row (rows df) ->
    lookup_cell (columns df) row "ingested_at" = PyTime (now_seq w (reads w)) /\
    exists t, In t tickers /\ lookup_cell (columns df) row "symbol" = PyStr t.
Proof.
  intros HP H row Hrow.
  destruct (prices_result _ _ _ _ _ _ HP H) as [(-> & _)|[-> ->]];
    [contradiction|].
  cbn [rows columns] in *. apply filter_In in Hrow as [Hrow _].
  apply (downloaded_rows_In _ _ _ _ _ HP) in Hrow as (t & r & Ht & Hlen & ->).
  destruct (price_row_cells t (now_seq w (reads w)) r Hlen) as (_ & Hs & Hi & _).
  split; [exact Hi|]. exists t. split; assumption.
Qed.

Lemma extract_yahoo_prices_row_stamps_witness :
  lookup_cell (columns sample_output) (hd [] (rows sample_output)) "ingested_at" =
    PyTime (now_seq sample_world (reads sample_world)) /\
  exists t, In t ["AAA"; "BBB"] /\
            lookup_cell (columns sample_output) (hd [] (rows sample_output))
              "symbol" = PyStr t.
Proof.
  apply (extract_yahoo_prices_row_stamps sample_provider ["AAA"; "BBB"] None None
           "5d" sample_world (tick sample_world) sample_output
           sample_provider_prices eq_refl).
  simpl. tauto.
Defined.

(** X11: in a grouped download of price frames, a row of a ticker
    reaches the result exactly when its [Close] and its [Volume] are
    not null; nulls in the other columns do not remove a row, and the
    result has no other rows. *)
Theorem extract_yahoo_prices_rows_iff
    (P : Provider) (tickers : list string) (start_date end_date : option string)
    (period : string) (data : gmap string IFrame) (w w' : World) (df : Frame) :
  price_provider P ->
  length tickers <> 1%nat ->
  download_many P tickers (request_window start_date end_date period) = Ok data ->
  extract_yahoo_prices P tickers start_date end_date period w = (Ok df, w') ->
  forall row,
    In row (rows df) <->
    exists t f r,
      In t tickers /\ data !! t = Some f /\ In r (irows f) /\
      row = price_row t (now_seq w (reads w)) r /\
      isna (lookup_cell price_columns (snd r) "Close") = false /\
      isna (lookup_cell price_columns (snd r) "Volume") = false.
Proof.
  intros HP Hlen Hd H row.
  assert (Hrows : forall t f r, data !! t = Some f -> In r (irows f) ->
                  length (snd r) = 6%nat).
  { intros t f r Hf Hr. destruct (proj2 HP _ _ _ _ _ Hd Hf) as (_ & _ & Hl).
    rewrite List.Forall_forall in Hl. now apply Hl. }
  assert (Hiff : In row (List.filter complete_row
                   (flat_map (ticker_rows data (now_seq w (reads w))) tickers)) <->
    exists t f r,
      In t tickers /\ data !! t = Some f /\ In r (irows f) /\
      row = price_row t (now_seq w (reads w)) r /\
      isna (lookup_cell price_columns (snd r) "Close") = false /\
      isna (lookup_cell price_columns (snd r) "Volume") = false).
  { rewrite filter_In, in_flat_map. split.
    - intros [(t & Ht & Hin) Hc]. unfold ticker_rows in Hin.
      destruct (data !! t) as [f|] eqn:E; [|contradiction].
      apply in_map_iff in Hin as (r & <- & Hr). exists t, f, r.
      destruct (price_row_cells t (now_seq w (reads w)) r (Hrows t f r E Hr))
        as (_ & _ & _ & Hcr).
      rewrite Hcr in Hc. apply andb_true_iff in Hc as [C V].
      apply negb_true_iff in C, V. auto 10.
    - intros (t & f & r & Ht & Hf & Hr & -> & C & V). split.
      + exists t. split; [exact Ht|]. unfold ticker_rows. rewrite Hf.
        now apply in_map.
      + destruct (price_row_cells t (now_seq w (reads w)) r (Hrows t f r Hf Hr))
          as (_ & _ & _ & Hcr).
        now rewrite Hcr, C, V. }
  unfold extract_yahoo_prices in H.
  rewrite (prices_many P tickers _ data w Hlen Hd) in H
    by (intros; eapply (proj2 HP); eassumption).
  destruct (present_frames data tickers) eqn:E.
  - injection H as <- <-. cbn [rows empty_frame]. split; [contradiction|].
    intros (t & f & r & Ht & Hf & _).
    rewrite (present_frames_nil data tickers E t Ht) in Hf. discriminate.
  - injection H as <- <-. exact Hiff.
Qed.

Lemma extract_yahoo_prices_rows_iff_witness :
  In (hd [] (rows sample_output)) (rows sample_output) <->
  exists t f r,
    In t ["AAA"; "BBB"] /\
    ({[ "AAA" := sample_prices ]} : gmap string IFrame) !! t = Some f /\
    In r (irows f) /\
    hd [] (rows sample_output) =
      price_row t (now_seq sample_world (reads sample_world)) r /\
    isna (lookup_cell price_columns (snd r) "Close") = false /\
    isna (lookup_cell price_columns (snd r) "Volume") = false.
Proof.
  apply (extract_yahoo_prices_rows_iff sample_provider ["AAA"; "BBB"] None None
           "5d" {[ "AAA" := sample_prices ]} sample_world (tick sample_world)
           sample_output sample_provider_prices).
  - simpl. lia.
  - reflexivity.
  - reflexivity.
Defined.

Lemma isetitem_reset_rows (name : string) (v : pyval) (f : IFrame) (df : Frame) :
  reset_index (isetitem name v f) = Ok df ->
  length (rows df) = length (irows f).
Proof.
  unfold reset_index, isetitem.
  destruct (mem name (icolumns f)); cbn [index_name icolumns irows];
    match goal with |- context [if ?c then _ else _] => destruct c end;
    try discriminate; intros [= <-]; cbn [rows]; now rewrite !length_map.
Qed.

Lemma normalise_prices_rows_le (df out : Frame) (w w' : World) :
  normalise_prices df w = (Ok out, w') ->
  (length (rows out) <= length (rows df))%nat.
Proof.
  unfold normalise_prices, bind, lift, ret, datetime_now.
  destruct (select_columns _ _) as [df1|] eqn:S; [|discriminate].
  apply select_columns_labels in S as [_ Hlen].
  cbn [rename_columns lower_columns rows] in Hlen.
  unfold dropna. destruct (forallb _ critical_columns); [|discriminate].
  intros [= <- _]. cbn [rows].
  etransitivity; [apply filter_length_le|].
  unfold setitem. destruct (mem _ _); cbn [rows]; rewrite length_map; lia.
Qed.

Lemma reindexed_rows_length (cols : list string) (dfs : list Frame) :
  length (flat_map (fun f => map (fun r => map (lookup_cell (columns f) r) cols)
                                 (rows f)) dfs)
  = length (flat_map rows dfs).
Proof.
  induction dfs as [|f l IH]; [reflexivity|].
  cbn [flat_map]. now rewrite !length_app, length_map, IH.
Qed.

Lemma pd_concat_rows (dfs : list Frame) (df : Frame) :
  pd_concat dfs = Ok df ->
  length (rows df) = length (flat_map rows dfs).
Proof.
  unfold pd_concat. destruct dfs as [|f0 dfs']; [discriminate|].
  destruct (forallb _ (f0 :: dfs')); [now intros [= <-]|].
  destruct (existsb _ (f0 :: dfs')); [discriminate|].
  intros [= <-]. exact (reindexed_rows_length _ (f0 :: dfs')).
Qed.

Lemma collect_frames_rows (d : nat) (data : gmap string IFrame) :
  (forall t f, data !! t = Some f -> (length (irows f) <= d)%nat) ->
  forall tickers acc dfs,
    collect_frames data tickers acc = Ok dfs ->
    (length (flat_map rows dfs)
     <= length (flat_map rows acc) + d * length tickers)%nat.
Proof.
  intros Hd. induction tickers as [|t rest IH]; intros acc dfs H.
  - injection H as <-. cbn. lia.
  - cbn [collect_frames] in H. cbn [length].
    destruct (ticker_frame data t) as [td|e] eqn:E.
    + apply IH in H. rewrite flat_map_app, length_app in H.
      cbn [flat_map] in H. rewrite app_nil_r in H.
      unfold ticker_frame in E. destruct (data !! t) as [f|] eqn:F; [|discriminate].
      apply isetitem_reset_rows in E. specialize (Hd t f F). lia.
    + destruct (is_KeyError e); [|discriminate]. apply IH in H. lia.
Qed.

(** X12: the result never has more rows than were downloaded: when
    every frame the provider returns has at most [d] rows, a returned
    table has at most [d] rows per requested ticker. *)
Theorem extract_yahoo_prices_row_bound
    (P : Provider) (tickers : list string) (start_date end_date : option string)
    (period : string) (d : nat) (w w' : World) (df : Frame) :
  (forall t win f, download_one P t win = Ok f -> (length (irows f) <= d)%nat) ->
  (forall ts win data t f,
     download_many P ts win = Ok data -> data !! t = Some f ->
     (length (irows f) <= d)%nat) ->
  extract_yahoo_prices P tickers start_date end_date period w = (Ok df, w') ->
  (length (rows df) <= d * length tickers)%nat.
Proof.
  intros Hone Hmany H. unfold extract_yahoo_prices in H.
  set (win := request_window start_date end_date period) in *.
  destruct (Nat.eq_dec (length tickers) 1%nat) as [L|L].
  - destruct tickers as [|t [|? ?]]; try discriminate.
    unfold prices_for_window in H. rewrite try_except_reraise in H.
    unfold bind at 1, lift at 1 in H.
    destruct (download_one P t win) as [f|] eqn:D; [|discriminate].
    unfold bind at 1, lift at 1 in H.
    destruct (reset_index _) as [df0|] eqn:R; [|discriminate].
    apply normalise_prices_rows_le in H. apply isetitem_reset_rows in R.
    specialize (Hone _ _ _ D). cbn [length]. lia.
  - rewrite prices_for_window_many in H by assumption.
    unfold bind at 1, lift at 1 in H.
    destruct (download_many P tickers win) as [data|] eqn:D; [|discriminate].
    unfold bind at 1, lift at 1 in H.
    destruct (collect_frames data tickers []) as [dfs|] eqn:C; [|discriminate].
    apply (collect_frames_rows d data) in C;
      [|intros; eapply Hmany; eassumption].
    cbn [flat_map length] in C.
    destruct dfs as [|f0 dfs'].
    + injection H as <- _. cbn. lia.
    + unfold bind at 1, lift at 1 in H.
      destruct (pd_concat (f0 :: dfs')) as [df0|] eqn:Q; [|discriminate].
      apply normalise_prices_rows_le in H. apply pd_concat_rows in Q. lia.
Qed.

Lemma extract_yahoo_prices_row_bound_witness :
  (length (rows sample_output) <= 3 * length ["AAA"; "BBB"])%nat.
Proof.
  apply (extract_yahoo_prices_row_bound sample_provider ["AAA"; "BBB"] None None
           "5d" 3 sample_world (tick sample_world) sample_output).
  - intros t win f [= <-]. simpl. lia.
  - intros ts win data t f [= <-] H.
    apply lookup_singleton_Some in H as [_ <-]. simpl. lia.
  - reflexivity.
Defined.

(** X13: after the download of a single ticker, the extractor raises
    the [KeyError] of the column selection when the frame lacks one of
    the required labels, for example [Adj Close]; no partial table is
    returned and the clock is not read. *)
Theorem extract_yahoo_prices_missing_column
    (P : Provider) (t : string) (start_date end_date : option string)
    (period : string) (f : IFrame) (df0 : Frame) (w : World) :
  download_one P t (request_window start_date end_date period) = Ok f ->
  reset_index (isetitem "symbol" (PyStr t) f) = Ok df0 ->
  forallb (fun n => mem n (normalised_labels df0)) final_columns = false ->
  extract_yahoo_prices P [t] start_date end_date period w =
  (Raise (KeyError "not in index"), w).
Proof.
  intros Hd Hr Hc. unfold extract_yahoo_prices, prices_for_window.
  rewrite try_except_reraise. unfold bind at 1, lift at 1. rewrite Hd.
  unfold bind at 1, lift at 1. rewrite Hr.
  destruct (normalise_prices_cases df0 w) as [[_ E]|[A _]];
    [exact E | congruence].
Qed.

Lemma extract_yahoo_prices_missing_column_witness :
  extract_yahoo_prices odd_provider ["ADJ"] None None "5d" sample_world =
  (Raise (KeyError "not in index"), sample_world).
Proof.
  exact (extract_yahoo_prices_missing_column odd_provider "ADJ" None None "5d"
           adjusted_prices _ sample_world eq_refl eq_refl eq_refl).
Defined.

End PricesMore.

(** ** Further properties of yahoo_company_info.py *)

Section CompanyInfoMore.

Variable P : Provider.

Lemma iter_tick (n : nat) (w : World) :
  Nat.iter n tick w =
  mkWorld (now_seq w) (uuid_seq w) (reads w + n) (draws w).
Proof.
  induction n as [|n IH].
  - cbn. rewrite Nat.add_0_r. now destruct w.
  - rewrite Nat.iter_succ, IH. unfold tick. cbn [now_seq uuid_seq reads draws].
    now rewrite Nat.add_succ_r.
Qed.

Lemma step_record_ingested_at (sym : string) (t : DateTime) :
  record_get (step_record P sym t) "ingested_at" = PyTime t.
Proof. unfold step_record. destruct (ticker_info P sym); reflexivity. Qed.

Lemma records_of_elem (tickers : list string) (w : World) (r : PyRecord) :
  In r (records_of P tickers w) <->
  exists i sym, tickers !! i = Some sym /\
                r = step_record P sym (now_seq w (reads w + i)).
Proof.
  rewrite <- list_elem_of_In, list_elem_of_lookup. split.
  - intros [i H]. rewrite records_of_lookup in H.
    destruct (tickers !! i) as [sym|] eqn:E; [|discriminate].
    exists i, sym. split; [exact E|]. cbn in H. congruence.
  - intros (i & sym & E & ->). exists i. rewrite records_of_lookup, E.
    reflexivity.
Qed.

Lemma company_rows_lookup (tickers : list string) (w : World) (i : nat)
    (row : list pyval) :
  rows (dataframe_of_records (records_of P tickers w)) !! i = Some row ->
  exists sym,
    tickers !! i = Some sym /\
    forall c,
      lookup_cell (columns (dataframe_of_records (records_of P tickers w))) row c
      = null_cell (record_get (step_record P sym (now_seq w (reads w + i))) c).
Proof.
  cbn [dataframe_of_records rows].
  change (@map PyRecord) with (@fmap list _ PyRecord).
  rewrite list_lookup_fmap, records_of_lookup.
  destruct (tickers !! i) as [sym|] eqn:E; [|discriminate].
  cbn. intros [= <-]. exists sym. split; [reflexivity|]. intros c.
  apply (record_row_cell (records_of P tickers w)).
  apply records_of_elem. eauto.
Qed.

(** X14: the company extractor reads the clock once per symbol and
    nothing else of the world: row [i] of the table carries as
    [ingested_at] the [i]-th clock reading of the call, so rows of one
    call carry different timestamps when the clock moves. *)
Theorem extract_yahoo_company_info_clock (tickers : list string) (w : World) :
  exists df w',
    extract_yahoo_company_info P tickers w = (Ok df, w') /\
    reads w' = (reads w + length tickers)%nat /\ draws w' = draws w /\
    forall i row, rows df !! i = Some row ->
      lookup_cell (columns df) row "ingested_at"
      = PyTime (now_seq w (reads w + i)).
Proof.
  eexists _, _. split; [apply extract_yahoo_company_info_eq|].
  rewrite iter_tick. cbn [reads draws]. split; [reflexivity|].
  split; [reflexivity|]. intros i row Hrow.
  apply company_rows_lookup in Hrow as (sym & _ & Hc).
  rewrite Hc. now rewrite step_record_ingested_at.
Qed.


(** X16: the columns of the company table depend on what happened: it
    has a column [error] exactly when the fetch of at least one symbol
    raised, and a column [company_name] exactly when at least one
    fetch succeeded. *)
Theorem extract_yahoo_company_info_error_column
    (tickers : list string) (w : World) :
  exists df w',
    extract_yahoo_company_info P tickers w = (Ok df, w') /\
    (In "error" (columns df) <->
     exists t e, In t tickers /\ ticker_info P t = Raise e) /\
    (In "company_name" (columns df) <->
     exists t info, In t tickers /\ ticker_info P t = Ok info).
Proof.
  eexists _, _. split; [apply extract_yahoo_company_info_eq|].
  cbn [dataframe_of_records columns].
  assert (Hcol : forall c,
            In c (unique_labels (flat_map (map fst) (records_of P tickers w))) <->
            exists i sym, tickers !! i = Some sym /\
              In c (map fst (step_record P sym (now_seq w (reads w + i))))).
  { intros c. rewrite unique_labels_In, in_flat_map. split.
    - intros (r & Hr & Hc). apply records_of_elem in Hr as (i & sym & E & ->).
      eauto.
    - intros (i & sym & E & Hc). eexists. split; [|exact Hc].
      apply records_of_elem. eauto. }
  split; rewrite Hcol; split.
  - intros (i & sym & E & Hc). unfold step_record in Hc.
    destruct (ticker_info P sym) as [info|e] eqn:T.
    + cbn in Hc. exfalso. intuition discriminate.
    + exists sym, e. split; [|exact T].
      apply list_elem_of_In, list_elem_of_lookup. eauto.
  - intros (t & e & Ht & T).
    apply list_elem_of_In, list_elem_of_lookup in Ht as [i E].
    exists i, t. split; [exact E|]. unfold step_record. rewrite T. cbn. tauto.
  - intros (i & sym & E & Hc). unfold step_record in Hc.
    destruct (ticker_info P sym) as [info|e] eqn:T.
    + exists sym, info. split; [|exact T].
      apply list_elem_of_In, list_elem_of_lookup. eauto.
    + cbn in Hc. exfalso. intuition discriminate.
  - intros (t & info & Ht & T).
    apply list_elem_of_In, list_elem_of_lookup in Ht as [i E].
    exists i, t. split; [exact E|]. unfold step_record. rewrite T. cbn. tauto.
Qed.

(** X17: the loop works symbol by symbol: the records of a list are the
    records of its first part followed by the records of the rest made
    in the world the first part left behind. *)
Theorem company_records_app (ts1 ts2 : list string) (w : World) :
  exists r1 w1 r2 w2,
    company_records P ts1 [] w = (Ok r1, w1) /\
    company_records P ts2 [] w1 = (Ok r2, w2) /\
    company_records P (ts1 ++ ts2) [] w = (Ok (r1 ++ r2), w2).
Proof.
  eexists _, _, _, _.
  split; [apply company_records_eq|]. split; [apply company_records_eq|].
  rewrite company_records_eq. cbn [app].
  rewrite !iter_tick, length_app. cbn [now_seq uuid_seq reads draws].
  rewrite Nat.add_assoc. f_equal. f_equal.
  rewrite imap_app. f_equal. apply imap_ext. intros i x _. cbn.
  now rewrite Nat.add_assoc.
Qed.

End CompanyInfoMore.


(** ** tests/test_local.py *)

Section TestLocal.

(** X18: with a ticker file that has both lists, [test_extractors]
    never raises: it asks for the first three stocks and the first two
    benchmarks, returns [False] when the price extractor or the
    benchmark extractor raises and [True] otherwise; the company
    extractor cannot make it fail. *)
Theorem test_extractors_result
    (P : Provider) (bench : list string -> string -> M Frame)
    (config : gmap string (list string)) (stocks benchmarks : list string)
    (w : World) :
  config !! "stocks" = Some stocks ->
  config !! "benchmarks" = Some benchmarks ->
  exists b w',
    test_extractors P bench (Ok config) w = (Ok b, w') /\
    (b = true <->
     exists df1 w1 df3 w3,
       extract_yahoo_prices P (take 3 stocks) None None "5d" w = (Ok df1, w1) /\
       bench (take 2 benchmarks) "5d"
         (Nat.iter (length (take 3 stocks)) tick w1) = (Ok df3, w3)).
Proof.
  intros Hs Hb. unfold test_extractors, bind at 1, lift at 1.
  unfold bind at 1, lift at 1, config_get. rewrite Hs.
  unfold bind at 1, lift at 1. rewrite Hb.
  unfold try_except, bind at 1.
  destruct (extract_yahoo_prices P (take 3 stocks) None None "5d" w)
    as [[df1|e1] w1] eqn:E1.
  - unfold bind at 1. rewrite extract_yahoo_company_info_eq.
    unfold bind at 1.
    destruct (bench (take 2 benchmarks) "5d" _) as [[df3|e3] w3] eqn:E3.
    + eexists _, _. split; [reflexivity|]. split; [|reflexivity].
      intros _. exists df1, w1, df3, w3. split; [reflexivity | exact E3].
    + eexists _, _. split; [reflexivity|]. split; [discriminate|].
      intros (? & ? & ? & ? & [= <- <-] & H). rewrite E3 in H. discriminate.
  - eexists _, _. split; [reflexivity|]. split; [discriminate|].
    intros (? & ? & ? & ? & H & _). discriminate.
Qed.

Lemma test_extractors_result_witness :
  exists w',
    test_extractors sample_provider sample_benchmark_series (Ok sample_config)
      sample_world = (Ok true, w').
Proof.
  destruct (test_extractors_result sample_provider sample_benchmark_series
              sample_config ["AAA"; "BBB"; "CCC"; "DDD"] ["^GSPC"] sample_world
              eq_refl eq_refl) as (b & w' & H & Hb).
  exists w'. rewrite H. f_equal. f_equal. apply Hb.
  eexists _, _, _, _. split; reflexivity.
Defined.

(** X19: a ticker file without the [stocks] list makes [test_extractors]
    raise [KeyError]: the lists are read before the [try], so this
    failure is not turned into [False]. *)
Theorem test_extractors_missing_key
    (P : Provider) (bench : list string -> string -> M Frame)
    (config : gmap string (list string)) (w : World) :
  config !! "stocks" = None ->
  test_extractors P bench (Ok config) w = (Raise (KeyError "stocks"), w).
Proof.
  intros H. unfold test_extractors, bind, lift, config_get. now rewrite H.
Qed.

Lemma test_extractors_missing_key_witness :
  test_extractors sample_provider sample_benchmark_series (Ok ∅) sample_world
  = (Raise (KeyError "stocks"), sample_world).
Proof.
  exact (test_extractors_missing_key sample_provider sample_benchmark_series
           ∅ sample_world eq_refl).
Defined.

End TestLocal.
